(** * Task manager: the task list, the task form, the category sidebar and
    the data access layer, as a shallow embedding of the TypeScript sources.

  Conventions of the embedding.
  - A JavaScript string is a [string], one character per code unit; the
    text handled by the components is taken to be of code units below
    256 (Latin-1).  On such text [toLowerCase] and [trim] are modelled in
    full: the letters A to Z and the accented capitals from 192 to 222
    fold, and the no-break space is white space.
  - A timestamp column ([due_date], [created_at], ...) holds an ISO string;
    every use in the code goes through [new Date(s).getTime()], so a
    timestamp is the number of milliseconds it denotes, a [Z].  A field
    that is [null], [undefined] or absent is [None].
  - A JavaScript number that may be [NaN] is an [option Z], [None] for NaN.
  - A call that may raise is a [Completion].
  - The hosted relational service is a list of rows per table, with the
    columns, the trigger and the foreign key of database/schema.sql; the
    reading of the server's clock ([NOW()]) is an argument of the calls
    that update rows.
  - The engine's time zone is an argument of the code that does calendar
    arithmetic on local time. *)

From Stdlib Require Import List String Ascii ZArith Bool Lia Permutation Sorted.
Import ListNotations.
Local Open Scope string_scope.
Local Open Scope Z_scope.

(** ** Stable sorting

    Both the engine's array sort and the service's [ORDER BY] are modelled
    by one stable insertion sort over a boolean "goes before or ties"
    test. *)

Section StableSort.
Context {A : Type} (before : A -> A -> bool).

Fixpoint insert (x : A) (l : list A) : list A :=
  match l with
  | [] => [x]
  | y :: l' => if before x y then x :: y :: l' else y :: insert x l'
  end.

Fixpoint stable_sort (l : list A) : list A :=
  match l with
  | [] => []
  | x :: l' => insert x (stable_sort l')
  end.
End StableSort.

(** ** JavaScript primitives used by the components *)

Module Js.

(** A number, [None] standing for NaN. *)
Definition Number := option Z.

(** [a - b] on numbers that come from an object lookup: a missing operand
    ([undefined]) makes the difference NaN. *)
Definition sub (a b : Number) : Number :=
  match a, b with
  | Some x, Some y => Some (x - y)
  | _, _ => None
  end.

(** Abrupt and normal completion of a call.  [CodedError] is an exception
    object that has a [code] property beside its message, as the
    exceptions of the runtime's input and output layer have. *)
Inductive Error :=
| TypeError (message : string)
| OtherError (message : string)
| CodedError (code message : string).

Definition error_message (e : Error) : string :=
  match e with
  | TypeError m => m
  | OtherError m => m
  | CodedError _ m => m
  end.

(** ['code' in e], with the code. *)
Definition error_code (e : Error) : option string :=
  match e with
  | CodedError c _ => Some c
  | _ => None
  end.

Inductive Completion (A : Type) :=
| Normal (a : A)
| Throw (e : Error).
Arguments Normal {A} a.
Arguments Throw {A} e.

Definition bind {A B} (c : Completion A) (k : A -> Completion B) : Completion B :=
  match c with
  | Normal a => k a
  | Throw e => Throw e
  end.

(** The double quote character, as a one-character string. *)
Definition dquote : string := String (ascii_of_nat 34) EmptyString.

(** Truthiness of a string: only the empty string is falsy. *)
Definition truthy (s : string) : bool :=
  match s with
  | EmptyString => false
  | String _ _ => true
  end.

(** [String.prototype.toLowerCase] on code units below 256: A to Z, and
    the capitals from 192 to 222 but for the multiplication sign 215,
    map to the code unit 32 further on; every other code unit maps to
    itself. *)
Definition lower_char (c : ascii) : ascii :=
  let n := nat_of_ascii c in
  if ((Nat.leb 65 n && Nat.leb n 90)
      || (Nat.leb 192 n && Nat.leb n 222 && negb (Nat.eqb n 215)))%bool
  then ascii_of_nat (n + 32) else c.

Fixpoint toLowerCase (s : string) : string :=
  match s with
  | EmptyString => EmptyString
  | String c s' => String (lower_char c) (toLowerCase s')
  end.

(** [s.startsWith(p)] and [s.includes(sub)]. *)
Fixpoint startsWith (s p : string) {struct p} : bool :=
  match p, s with
  | EmptyString, _ => true
  | String _ _, EmptyString => false
  | String a p', String b s' => (Ascii.eqb a b && startsWith s' p')%bool
  end.

Fixpoint includes (s sub : string) : bool :=
  (startsWith s sub ||
   match s with
   | EmptyString => false
   | String _ s' => includes s' sub
   end)%bool.

(** [String.prototype.trim] on code units below 256: tab, line feed,
    vertical tab, form feed, carriage return, space and the no-break
    space 160 are white space or line terminators. *)
Definition isWhiteSpace (c : ascii) : bool :=
  let n := nat_of_ascii c in
  ((Nat.leb 9 n && Nat.leb n 13) || Nat.eqb n 32 || Nat.eqb n 160)%bool.

Fixpoint trimStart (s : string) : string :=
  match s with
  | EmptyString => EmptyString
  | String c s' => if isWhiteSpace c then trimStart s' else s
  end.

Fixpoint trimEnd (s : string) : string :=
  match s with
  | EmptyString => EmptyString
  | String c s' =>
      match trimEnd s' with
      | EmptyString => if isWhiteSpace c then EmptyString else String c EmptyString
      | t => String c t
      end
  end.

Definition trim (s : string) : string := trimEnd (trimStart s).

(** [Array.prototype.sort(comparefn)].  The comparison the engine uses is
    the comparator's result with NaN read as [+0]; the sort is stable.
    For a consistent comparator the result is fixed by these two facts,
    and [stable_sort] computes it.  For a comparator that is not
    consistent the language leaves the order to the engine: [sort] then
    is the order one stable insertion sort gives, and an engine may give
    another. *)
Section Sort.
Context {A : Type} (comparefn : A -> A -> Number).

Definition SortCompare (x y : A) : Z :=
  match comparefn x y with
  | Some v => v
  | None => 0
  end.

Definition sort (l : list A) : list A :=
  stable_sort (fun x y => SortCompare x y <=? 0) l.
End Sort.

(** The engine's time zone: [LocalTZA(t, isUTC)], the offset of local
    time from UTC in milliseconds, at the instant [t] when [isUTC] is
    true and at the local time [t] when it is false. *)
Record Zone := mkZone {
  offset_at_instant : Z -> Z;
  offset_at_local_time : Z -> Z
}.

Definition LocalTZA (zone : Zone) (t : Z) (isUTC : bool) : Z :=
  if isUTC then offset_at_instant zone t else offset_at_local_time zone t.

Definition LocalTime (zone : Zone) (t : Z) : Z := t + LocalTZA zone t true.

Definition UTC (zone : Zone) (t : Z) : Z := t - LocalTZA zone t false.

Definition msPerDay : Z := 86400000.

(** [d.setDate(d.getDate() + days)] on the date of time value [t]: the
    local reading of [t] moved by [days] calendar days, the time of day
    kept, read back as an instant. *)
Definition addDays (zone : Zone) (t : Z) (days : Z) : Z :=
  UTC zone (LocalTime zone t + days * msPerDay).

(** A zone whose clocks never change. *)
Definition fixed_zone (offset : Z) : Zone := mkZone (fun _ => offset) (fun _ => offset).

End Js.

(** ** Data model (lib/supabase.ts, as used by the components)

    A task object has the properties the components and the data access
    layer read or write.  [priority] and [completed_at] are among them,
    and optional: the interface in lib/supabase.ts declares neither, the
    form reads [task?.priority] with a fallback, and the objects of the
    components' tests carry them.  The tasks table of schema.sql has no
    column for either: see [Postgrest.tasks_columns]. *)

Definition Timestamp := Z.

Inductive Priority := low | medium | high.

Record Task := mkTask {
  id : string;
  title : string;
  description : option string;
  completed : bool;
  due_date : option Timestamp;
  reminder_date : option Timestamp;
  priority : option Priority;
  category_id : option string;
  user_id : string;
  created_at : Timestamp;
  updated_at : Timestamp;
  completed_at : option Timestamp
}.

Record Category := mkCategory {
  cat_id : string;
  cat_name : string;
  cat_color : string;
  cat_description : option string;
  cat_user_id : string
}.

Record User := mkUser { uid : string }.

(** ** The hosted relational service (PostgREST query semantics over the
       tables of database/schema.sql) *)

Module Postgrest.

Record PostgrestError := mkPgError { code : string; message : string }.

(** The [{ data, error }] pair every query resolves to. *)
Record Response (A : Type) := mkResponse {
  data : option A;
  error : option PostgrestError
}.
Arguments mkResponse {A} data error.
Arguments data {A} r.
Arguments error {A} r.

Record Db := mkDb {
  tasks_table : list Task;
  categories_table : list Category
}.

(** A partial row for [.update(...)]: [None] leaves the column alone. *)
Record TaskUpdates := mkUpdates {
  set_title : option string;
  set_description : option (option string);
  set_completed : option bool;
  set_due_date : option (option Timestamp);
  set_reminder_date : option (option Timestamp);
  set_priority : option (option Priority);
  set_category_id : option (option string);
  set_user_id : option string;
  set_updated_at : option Timestamp;
  set_completed_at : option (option Timestamp)
}.

Definition or_keep {A} (new : option A) (old : A) : A :=
  match new with
  | Some v => v
  | None => old
  end.

(** The payload applied to a row, before any trigger. *)
Definition apply_updates (u : TaskUpdates) (t : Task) : Task :=
  {| id := id t;
     title := or_keep (set_title u) (title t);
     description := or_keep (set_description u) (description t);
     completed := or_keep (set_completed u) (completed t);
     due_date := or_keep (set_due_date u) (due_date t);
     reminder_date := or_keep (set_reminder_date u) (reminder_date t);
     priority := or_keep (set_priority u) (priority t);
     category_id := or_keep (set_category_id u) (category_id t);
     user_id := or_keep (set_user_id u) (user_id t);
     created_at := created_at t;
     updated_at := or_keep (set_updated_at u) (updated_at t);
     completed_at := or_keep (set_completed_at u) (completed_at t) |}.

(** The columns of the tasks table ([CREATE TABLE tasks], schema.sql). *)
Definition tasks_columns : list string :=
  ["id"; "title"; "description"; "completed"; "due_date"; "reminder_date";
   "category_id"; "user_id"; "created_at"; "updated_at"].

Definition key {A} (name : string) (v : option A) : list string :=
  match v with
  | Some _ => [name]
  | None => []
  end.

(** The keys of a partial row, in the order of the record. *)
Definition keys (u : TaskUpdates) : list string :=
  (key "title" (set_title u) ++ key "description" (set_description u)
   ++ key "completed" (set_completed u) ++ key "due_date" (set_due_date u)
   ++ key "reminder_date" (set_reminder_date u) ++ key "priority" (set_priority u)
   ++ key "category_id" (set_category_id u) ++ key "user_id" (set_user_id u)
   ++ key "updated_at" (set_updated_at u) ++ key "completed_at" (set_completed_at u))%list.

(** The first key that is not a column of the table. *)
Definition unknown_column (u : TaskUpdates) : option string :=
  find (fun k => negb (existsb (String.eqb k) tasks_columns)) (keys u).

(** The answer to a request whose body names a column the table does not
    have. *)
Definition PGRST204 (column : string) : PostgrestError :=
  mkPgError "PGRST204"
    ("Could not find the '" ++ column ++ "' column of 'tasks' in the schema cache").

(** The trigger [tasks_updated_at], [BEFORE UPDATE ON tasks FOR EACH ROW]:
    [NEW.updated_at = NOW()], whatever the update set it to. *)
Definition handle_updated_at (server_now : Timestamp) (t : Task) : Task :=
  mkTask (id t) (title t) (description t) (completed t) (due_date t) (reminder_date t)
         (priority t) (category_id t) (user_id t) (created_at t) server_now (completed_at t).

(** The row an update of [t] stores: the payload applied, then the
    trigger. *)
Definition updated_row (u : TaskUpdates) (server_now : Timestamp) (t : Task) : Task :=
  handle_updated_at server_now (apply_updates u t).

(** [.update(u)] restricted by the [.eq] filters [sel]. *)
Definition update_where (sel : Task -> bool) (u : TaskUpdates) (server_now : Timestamp)
    (rows : list Task) : list Task :=
  map (fun t => if sel t then updated_row u server_now t else t) rows.

(** [.delete()] restricted by the [.eq] filters [sel]. *)
Definition delete_where {A} (sel : A -> bool) (rows : list A) : list A :=
  filter (fun r => negb (sel r)) rows.

(** [.single()]: exactly one row, or the PGRST116 error. *)
Definition single {A} (rows : list A) : Response A :=
  match rows with
  | [r] => mkResponse (Some r) None
  | _ => mkResponse None
           (Some (mkPgError "PGRST116" "JSON object requested, multiple (or no) rows returned"))
  end.

(** [.update(u).eq(...).select().single()] on the tasks table.  A body
    that names an unknown column is refused before any row is looked at.
    Otherwise the rows [sel] picks are updated and returned; a singular
    response over other than one row is an error, and the update is not
    kept. *)
Definition update_single (sel : Task -> bool) (u : TaskUpdates) (server_now : Timestamp)
    (db : Db) : Response Task * Db :=
  match unknown_column u with
  | Some column => (mkResponse None (Some (PGRST204 column)), db)
  | None =>
      let r := single (map (updated_row u server_now) (filter sel (tasks_table db))) in
      match data r with
      | Some _ =>
          (r, mkDb (update_where sel u server_now (tasks_table db)) (categories_table db))
      | None => (r, db)
      end
  end.

(** [.lte(column, v)] on a nullable timestamp: a null never compares. *)
Definition lte (column : option Timestamp) (v : Timestamp) : bool :=
  match column with
  | Some x => x <=? v
  | None => false
  end.

(** [.order(column, { ascending: true })] on a nullable timestamp: nulls
    last. *)
Definition asc_nulls_last (a b : option Timestamp) : bool :=
  match a, b with
  | Some x, Some y => x <=? y
  | Some _, None => true
  | None, Some _ => false
  | None, None => true
  end.

End Postgrest.

(** ** Data access layer (lib/database.ts)

    Every function builds one query.  The clock readings of
    [new Date()] are arguments, in the order the code takes them; the
    reading of the server's clock follows them.  The embedded
    [categories (id, name, color)] of the task selects is not part of a
    [Task] row and is left out.  The session is the user's own, as in
    the components, which pass the [user.id] of the signed-in user: the
    row policies of schema.sql ([auth.uid() = user_id]) then admit the
    rows the [user_id] filters select, and are not modelled apart from
    those filters. *)

Module database.
Import Postgrest.

Module tasks.

Definition owned_by (userId : string) (t : Task) : bool := (user_id t =? userId)%string.

Definition is_row (id_ userId : string) (t : Task) : bool :=
  ((id t =? id_)%string && (user_id t =? userId)%string)%bool.

(** [.eq('user_id', userId).order('created_at', { ascending: false })] *)
Definition getAll (userId : string) (db : Db) : Response (list Task) :=
  mkResponse
    (Some (stable_sort (fun a b => created_at b <=? created_at a)
             (filter (owned_by userId) (tasks_table db))))
    None.

(** The payload of [toggleComplete]: three columns, one object. *)
Definition toggle_payload (completed_ : bool) (now_updated now_completed : Timestamp)
  : TaskUpdates :=
  {| set_title := None;
     set_description := None;
     set_completed := Some completed_;
     set_due_date := None;
     set_reminder_date := None;
     set_priority := None;
     set_category_id := None;
     set_user_id := None;
     set_updated_at := Some now_updated;
     set_completed_at := Some (if completed_ then Some now_completed else None) |}.

(** [.update(payload).eq('id', id).eq('user_id', userId).select().single()] *)
Definition toggleComplete (id_ : string) (completed_ : bool) (userId : string)
    (now_updated now_completed server_now : Timestamp) (db : Db) : Response Task * Db :=
  update_single (is_row id_ userId) (toggle_payload completed_ now_updated now_completed)
                server_now db.

(** [.delete().eq('id', id).eq('user_id', userId)] *)
Definition delete (id_ userId : string) (db : Db) : Response unit * Db :=
  (mkResponse None None,
   mkDb (delete_where (is_row id_ userId) (tasks_table db)) (categories_table db)).

(** [futureDate.setDate(futureDate.getDate() + days)] on [new Date()]:
    [days] calendar days on, in the engine's zone. *)
Definition futureDate (zone : Js.Zone) (now : Timestamp) (days : Z) : Timestamp :=
  Js.addDays zone now days.

(** [getUpcoming(userId, days = 7)]: [None] is the omitted argument. *)
Definition getUpcoming (zone : Js.Zone) (userId : string) (days : option Z)
    (now : Timestamp) (db : Db) : Response (list Task) :=
  let days := match days with Some d => d | None => 7 end in
  let rows :=
    filter (fun t => (owned_by userId t && Bool.eqb (completed t) false
                      && lte (due_date t) (futureDate zone now days))%bool)
           (tasks_table db) in
  mkResponse
    (Some (stable_sort (fun a b => asc_nulls_last (due_date a) (due_date b)) rows))
    None.

(** [.eq('id', id).eq('user_id', userId).single()] *)
Definition getById (id_ userId : string) (db : Db) : Response Task :=
  single (filter (is_row id_ userId) (tasks_table db)).

(** [.eq('category_id', categoryId).eq('user_id', userId)
     .order('created_at', { ascending: false })] *)
Definition getByCategory (categoryId userId : string) (db : Db) : Response (list Task) :=
  mkResponse
    (Some (stable_sort (fun a b => created_at b <=? created_at a)
             (filter (fun t => (match category_id t with
                                | Some c => (c =? categoryId)%string
                                | None => false
                                end && owned_by userId t)%bool)
                     (tasks_table db))))
    None.

(** [{ ...updates, updated_at: new Date().toISOString() }]: the clock
    reading replaces whatever [updates] says of [updated_at]. *)
Definition update_payload (updates : TaskUpdates) (now : Timestamp) : TaskUpdates :=
  mkUpdates (set_title updates) (set_description updates) (set_completed updates)
            (set_due_date updates) (set_reminder_date updates) (set_priority updates)
            (set_category_id updates) (set_user_id updates) (Some now)
            (set_completed_at updates).

(** [update(id, updates, userId)], for updates of the properties other
    than [id] and [created_at] (no caller sends those); the same query
    shape as [toggleComplete]. *)
Definition update (id_ : string) (updates : TaskUpdates) (userId : string)
    (now server_now : Timestamp) (db : Db) : Response Task * Db :=
  update_single (is_row id_ userId) (update_payload updates now) server_now db.

End tasks.

Module categories.

(** [.select('*').eq('user_id', userId).order('name', { ascending: true })] *)
Definition getAll (userId : string) (db : Db) : Response (list Category) :=
  mkResponse
    (Some (stable_sort (fun a b => (cat_name a <=? cat_name b)%string)
             (filter (fun c => (cat_user_id c =? userId)%string) (categories_table db))))
    None.

(** [.select('*').eq('id', id).eq('user_id', userId).single()] *)
Definition getById (id_ userId : string) (db : Db) : Response Category :=
  single (filter (fun c => ((cat_id c =? id_)%string && (cat_user_id c =? userId)%string)%bool)
                 (categories_table db)).

(** [.delete().eq('id', id).eq('user_id', userId)].  The tasks table
    refers to categories [ON DELETE SET NULL] (schema.sql): the tasks of
    a deleted category stay, their [category_id] null.  Setting it null
    is an update of the task row, so the trigger [tasks_updated_at]
    stamps it. *)
Definition delete (id_ userId : string) (server_now : Timestamp) (db : Db)
  : Response unit * Db :=
  let gone c := ((cat_id c =? id_)%string && (cat_user_id c =? userId)%string)%bool in
  let detach t :=
    match category_id t with
    | Some c =>
        if existsb (fun k => (gone k && (cat_id k =? c)%string)%bool) (categories_table db)
        then handle_updated_at server_now
               (mkTask (id t) (title t) (description t) (completed t) (due_date t)
                       (reminder_date t) (priority t) None (user_id t) (created_at t)
                       (updated_at t) (completed_at t))
        else t
    | None => t
    end in
  (mkResponse None None,
   mkDb (map detach (tasks_table db)) (delete_where gone (categories_table db))).

End categories.

End database.

(** ** Error handling utilities (lib/error-handler.ts) *)

Module error_handler.

Inductive ErrorType :=
| AUTHENTICATION | AUTHORIZATION | VALIDATION | NETWORK | DATABASE | NOT_FOUND | UNKNOWN.

(** What a caller hands to [handleSupabaseError]: the [error] of a
    response, or the exception it caught. *)
Inductive Failure :=
| OfResponse (e : Postgrest.PostgrestError)
| Caught (e : Js.Error).

Record AppError := mkAppError {
  type : ErrorType;
  message : string;
  originalError : option Failure;
  code : option string;
  details : option (string * option string)
}.

Definition ERROR_MESSAGES (t : ErrorType) : string :=
  match t with
  | AUTHENTICATION => "Please sign in to continue"
  | AUTHORIZATION => "You don't have permission to perform this action"
  | VALIDATION => "Please check your input and try again"
  | NETWORK => "Connection error. Please check your internet connection"
  | DATABASE => "Something went wrong. Please try again later"
  | NOT_FOUND => "The requested item could not be found"
  | UNKNOWN => "An unexpected error occurred. Please try again"
  end.

(** ['code' in error && 'message' in error], with the code: an error of
    a response has both; an exception has a message, and a code when it
    carries one. *)
Definition code_of (error : Failure) : option string :=
  match error with
  | OfResponse e => Some (Postgrest.code e)
  | Caught e => Js.error_code e
  end.

(** [error.message] *)
Definition message_of (error : Failure) : string :=
  match error with
  | OfResponse e => Postgrest.message e
  | Caught e => Js.error_message e
  end.

(** [context || null] *)
Definition context_detail (context : option string) : option (string * option string) :=
  Some ("context",
        match context with
        | Some c => if Js.truthy c then Some c else None
        | None => None
        end).

Definition handleSupabaseError (error : option Failure) (context : option string) : AppError :=
  match error with
  | None => mkAppError UNKNOWN (ERROR_MESSAGES UNKNOWN) None None None
  | Some e =>
      match code_of e with
      | Some c =>
          if (c =? "PGRST116")%string then
            mkAppError NOT_FOUND (ERROR_MESSAGES NOT_FOUND) (Some e) (Some c) None
          else if (c =? "23505")%string then
            mkAppError VALIDATION "This item already exists" (Some e) (Some c) None
          else if (c =? "23503")%string then
            mkAppError VALIDATION "Cannot delete item that is being used elsewhere"
                       (Some e) (Some c) None
          else if (c =? "42501")%string then
            mkAppError AUTHORIZATION (ERROR_MESSAGES AUTHORIZATION) (Some e) (Some c) None
          else
            mkAppError DATABASE (ERROR_MESSAGES DATABASE) (Some e) (Some c)
                       (context_detail context)
      | None =>
          let m := message_of e in
          if (Js.includes m "fetch" || Js.includes m "network")%bool then
            mkAppError NETWORK (ERROR_MESSAGES NETWORK) (Some e) None None
          else if (Js.includes m "auth" || Js.includes m "token")%bool then
            mkAppError AUTHENTICATION (ERROR_MESSAGES AUTHENTICATION) (Some e) None None
          else
            mkAppError UNKNOWN (ERROR_MESSAGES UNKNOWN) (Some e) None (context_detail context)
      end
  end.

(** The values of a [Record<string, string | number | boolean | null |
    undefined>], and [VObject] for the functions and objects a lookup
    finds on the prototype. *)
Inductive Value :=
| VString (s : string)
| VNumber (n : Js.Number)
| VBoolean (b : bool)
| VNull
| VUndefined
| VObject.

Definition falsy (v : Value) : bool :=
  match v with
  | VString s => negb (Js.truthy s)
  | VNumber None => true
  | VNumber (Some n) => n =? 0
  | VBoolean b => negb b
  | VNull => true
  | VUndefined => true
  | VObject => false
  end.

(** The own properties of [data], a plain object. *)
Fixpoint own (data : list (string * Value)) (field : string) : option Value :=
  match data with
  | [] => None
  | (k, v) :: rest => if (k =? field)%string then Some v else own rest field
  end.

(** The members a plain object inherits from [Object.prototype]. *)
Definition Object_prototype : list string :=
  ["constructor"; "hasOwnProperty"; "isPrototypeOf"; "propertyIsEnumerable";
   "toLocaleString"; "toString"; "valueOf"; "__proto__";
   "__defineGetter__"; "__defineSetter__"; "__lookupGetter__"; "__lookupSetter__"].

(** [data[field]]: the own property, or else the inherited member, or
    else [undefined]. *)
Definition get (data : list (string * Value)) (field : string) : Value :=
  match own data field with
  | Some v => v
  | None => if existsb (String.eqb field) Object_prototype then VObject else VUndefined
  end.

(** [missingFields.join(', ')] *)
Fixpoint join (sep : string) (l : list string) : string :=
  match l with
  | [] => ""
  | [x] => x
  | x :: rest => x ++ sep ++ join sep rest
  end.

Definition is_missing (data : list (string * Value)) (field : string) : bool :=
  (falsy (get data field) ||
   match get data field with
   | VString s => (Js.trim s =? "")%string
   | _ => false
   end)%bool.

(** [validateRequiredFields(data, requiredFields)].  The second parameter
    is [None] when the caller passes one argument: [requiredFields] is
    then [undefined] and reading its [filter] raises. *)
Definition validateRequiredFields (data : list (string * Value))
    (requiredFields : option (list string)) : Js.Completion (option AppError) :=
  match requiredFields with
  | None => Js.Throw (Js.TypeError "Cannot read properties of undefined (reading 'filter')")
  | Some fields =>
      let missingFields := filter (is_missing data) fields in
      if Nat.ltb 0 (List.length missingFields) then
        Js.Normal (Some (mkAppError VALIDATION
                           ("Please fill in all required fields: " ++ join ", " missingFields)
                           None None
                           (Some ("missingFields", Some (join ", " missingFields)))))
      else Js.Normal None
  end.

(** [formatErrorMessage(error)]:
    [error.message || ERROR_MESSAGES[error.type] || ERROR_MESSAGES.UNKNOWN] *)
Definition formatErrorMessage (error : AppError) : string :=
  if Js.truthy (message error) then message error
  else if Js.truthy (ERROR_MESSAGES (type error)) then ERROR_MESSAGES (type error)
  else ERROR_MESSAGES UNKNOWN.

End error_handler.

(** ** What a component does besides changing its own state

    A handler's calls to the data access layer, its notifications, its
    state setters and the callbacks it invokes on its parent are recorded,
    in order, as a list of effects.  The outcome of the awaited call is an
    argument of the handler.  A notification is a call of the [error] or
    the [success] function of [useToast()] (components/ui/Toast), recorded
    as [ShowError] or [ShowSuccess]; a handler that ends by raising an
    exception it does not catch has [Raise] as its last effect.  A
    callback of the parent is recorded where the child calls it; what it
    does is the parent's handler. *)

Record TaskData := mkTaskData {
  data_title : string;
  data_description : string;
  data_category_id : option string;
  data_due_date : option Timestamp;
  data_reminder_date : option Timestamp;
  data_priority : Priority;
  data_user_id : string
}.

Inductive DbCall :=
| tasks_create (taskData : TaskData)
| tasks_update (id_ : string) (taskData : TaskData) (userId : string)
| tasks_toggleComplete (id_ : string) (completed_ : bool) (userId : string)
| tasks_delete (id_ userId : string)
| categories_getAll (userId : string)
| categories_delete (id_ userId : string).

Inductive Effect :=
| Call (c : DbCall)
| ShowError (title_ : option string) (message : string)
| ShowSuccess (title_ : string) (message : option string)
| SetValidationErrors (errors : list (string * string))
| SetIsLoading (b : bool)
| SetIsUpdating (b : bool)
| OnSave (t : Task)
| OnToggleComplete (taskId : string) (completed_ : bool)
| OnCategorySelect (categoryId : option string)
| ConsoleError (label : string)
| Raise (e : Js.Error).

Definition is_call (e : Effect) : bool :=
  match e with
  | Call _ => true
  | _ => false
  end.

Definition is_showError (e : Effect) : bool :=
  match e with
  | ShowError _ _ => true
  | _ => false
  end.

(** ** Task form (components/tasks/TaskForm.tsx) *)

Module TaskForm.
Import error_handler.

(** The controlled inputs.  The two date inputs are [datetime-local]
    fields: the empty string is [None], any other value the instant it
    parses to. *)
Record FormData := mkFormData {
  form_title : string;
  form_description : string;
  form_category_id : string;
  form_due_date : option Timestamp;
  form_reminder_date : option Timestamp;
  form_priority : Priority
}.

(** [errors[key] = value] on a [Record<string, string>]. *)
Fixpoint set_key (errors : list (string * string)) (key value : string)
  : list (string * string) :=
  match errors with
  | [] => [(key, value)]
  | (k, v) :: rest =>
      if (k =? key)%string then (k, value) :: rest else (k, v) :: set_key rest key value
  end.

Definition show_type (t : ErrorType) : string :=
  match t with
  | AUTHENTICATION => "AUTHENTICATION"
  | AUTHORIZATION => "AUTHORIZATION"
  | VALIDATION => "VALIDATION"
  | NETWORK => "NETWORK"
  | DATABASE => "DATABASE"
  | NOT_FOUND => "NOT_FOUND"
  | UNKNOWN => "UNKNOWN"
  end.

(** [Object.assign(errors, requiredFieldErrors)]: nothing for [null], the
    own properties of the error object otherwise. *)
Definition assign (errors : list (string * string)) (source : option AppError)
  : list (string * string) :=
  match source with
  | None => errors
  | Some e =>
      let errors := set_key errors "type" (show_type (type e)) in
      let errors := set_key errors "message" (message e) in
      match details e with
      | Some _ => set_key errors "details" "[object Object]"
      | None => errors
      end
  end.

(** [validateForm()]: the effects it has (the final
    [setValidationErrors(errors)]) and its result. *)
Definition validateForm (formData : FormData) : list Effect * Js.Completion bool :=
  let errors : list (string * string) := [] in
  let requiredFields := [("title", VString (Js.trim (form_title formData)))] in
  match validateRequiredFields requiredFields None with
  | Js.Throw e => ([], Js.Throw e)
  | Js.Normal requiredFieldErrors =>
      let errors := assign errors requiredFieldErrors in
      let errors :=
        match form_due_date formData, form_reminder_date formData with
        | Some dueDate, Some reminderDate =>
            if dueDate <? reminderDate
            then set_key errors "reminder_date" "Reminder date cannot be after due date"
            else errors
        | _, _ => errors
        end in
      let errors :=
        if Nat.ltb 255 (String.length (Js.trim (form_title formData)))
        then set_key errors "title" "Title must be less than 255 characters"
        else errors in
      let errors :=
        if Nat.ltb 1000 (String.length (form_description formData))
        then set_key errors "description" "Description must be less than 1000 characters"
        else errors in
      ([SetValidationErrors errors], Js.Normal (Nat.eqb (List.length errors) 0))
  end.

Definition taskData_of (formData : FormData) (user : User) : TaskData :=
  {| data_title := Js.trim (form_title formData);
     data_description := Js.trim (form_description formData);
     data_category_id :=
       if Js.truthy (form_category_id formData) then Some (form_category_id formData)
       else None;
     data_due_date := form_due_date formData;
     data_reminder_date := form_reminder_date formData;
     data_priority := form_priority formData;
     data_user_id := uid user |}.

Definition context_of (task : option Task) : string :=
  match task with
  | Some _ => "Updating task"
  | None => "Creating task"
  end.

(** [handleSubmit(e)].  [result] is what the awaited create or update
    settles to.  [AppError] has no [userMessage], so the title of the
    error toast is [undefined]. *)
Definition handleSubmit (user : option User) (isLoading : bool) (task : option Task)
    (formData : FormData) (result : Js.Completion (Postgrest.Response Task))
  : list Effect * Js.Completion unit :=
  match user with
  | None => ([], Js.Normal tt)
  | Some u =>
      if isLoading then ([], Js.Normal tt) else
      let cleared := [SetValidationErrors []] in
      match validateForm formData with
      | (effs, Js.Throw e) => ((cleared ++ effs)%list, Js.Throw e)
      | (effs, Js.Normal false) =>
          ((cleared ++ effs ++
              [ShowError (Some "Please fix the validation errors")
                         "Check the form fields and try again"])%list,
           Js.Normal tt)
      | (effs, Js.Normal true) =>
          let taskData := taskData_of formData u in
          let call :=
            match task with
            | Some t => tasks_update (id t) taskData (uid u)
            | None => tasks_create taskData
            end in
          let after :=
            match result with
            | Js.Normal r =>
                match Postgrest.error r, Postgrest.data r with
                | Some err, _ =>
                    let appError :=
                      handleSupabaseError (Some (OfResponse err)) (Some (context_of task)) in
                    [ShowError None (message appError)]
                | None, Some saved =>
                    [ShowSuccess
                       (match task with
                        | Some _ => "Task updated successfully"
                        | None => "Task created successfully"
                        end)
                       (Some ("Task " ++ Js.dquote ++ data_title taskData ++ Js.dquote ++
                              " has been " ++
                              match task with Some _ => "updated" | None => "created" end));
                     OnSave saved]
                | None, None => []
                end
            | Js.Throw e =>
                let appError :=
                  handleSupabaseError (Some (Caught e)) (Some (context_of task)) in
                [ShowError None (message appError)]
            end in
          ((cleared ++ effs ++ [SetIsLoading true; Call call] ++ after
              ++ [SetIsLoading false])%list,
           Js.Normal tt)
      end
  end.

(** [new Date(ts).toISOString().slice(0, 16)]: the UTC date and time of
    [ts] cut after the minutes (years of four digits), as the number of
    milliseconds that reading counts from the epoch. *)
Definition isoMinute (ts : Timestamp) : Z := ts / 60000 * 60000.

(** [new Date(s)] for a date and time without offset: the reading is
    local time.  [tzOffset] is local time minus UTC in milliseconds, for
    a zone of fixed offset. *)
Definition parseLocal (tzOffset wall : Z) : Timestamp := wall - tzOffset.

(** The initial [formData] of [useState], for a new task ([None]) or the
    task being edited. *)
Definition initialFormData (tzOffset : Z) (task : option Task) : FormData :=
  match task with
  | None => mkFormData "" "" "" None None medium
  | Some t =>
      mkFormData
        (title t)
        (match description t with Some d => d | None => "" end)
        (match category_id t with Some c => c | None => "" end)
        (match due_date t with
         | Some d => Some (parseLocal tzOffset (isoMinute d))
         | None => None
         end)
        (match reminder_date t with
         | Some d => Some (parseLocal tzOffset (isoMinute d))
         | None => None
         end)
        (match priority t with Some p => p | None => medium end)
  end.

(** The form's payload as an update of the columns it names. *)
Definition updates_of (d : TaskData) : Postgrest.TaskUpdates :=
  Postgrest.mkUpdates (Some (data_title d)) (Some (Some (data_description d))) None
    (Some (data_due_date d)) (Some (data_reminder_date d)) (Some (Some (data_priority d)))
    (Some (data_category_id d)) (Some (data_user_id d)) None None.

End TaskForm.

(** ** Task form, the variant without local validation *)

Module TaskForm_plain.

(** [handleSubmit(e)]: the same payload and the same choice between
    update and create; no rule is checked before the call, and a failure
    is only logged. *)
Definition handleSubmit (user : option User) (isLoading : bool) (task : option Task)
    (formData : TaskForm.FormData) (result : Js.Completion (Postgrest.Response Task))
  : list Effect :=
  match user with
  | None => []
  | Some u =>
      if isLoading then [] else
      let taskData := TaskForm.taskData_of formData u in
      let call :=
        match task with
        | Some t => tasks_update (id t) taskData (uid u)
        | None => tasks_create taskData
        end in
      ([SetIsLoading true; Call call]
       ++ match result with
          | Js.Normal r =>
              match Postgrest.error r, Postgrest.data r with
              | None, Some saved => [OnSave saved]
              | _, _ => []
              end
          | Js.Throw _ => [ConsoleError "Error saving task:"]
          end
       ++ [SetIsLoading false])%list
  end.

End TaskForm_plain.

(** ** Task item (components/tasks/TaskItem.tsx) *)

Module TaskItem.

(** [handleToggleComplete()]: one [toggleComplete] call for the negated
    flag; the parent is told only when the response carries no error. *)
Definition handleToggleComplete (user : option User) (isUpdating : bool) (task : Task)
    (result : Js.Completion (Postgrest.Response Task)) : list Effect :=
  match user with
  | None => []
  | Some u =>
      if isUpdating then [] else
      ([SetIsUpdating true;
        Call (tasks_toggleComplete (id task) (negb (completed task)) (uid u))]
       ++ match result with
          | Js.Normal r =>
              match Postgrest.error r with
              | None => [OnToggleComplete (id task) (negb (completed task))]
              | Some _ => []
              end
          | Js.Throw _ => [ConsoleError "Error toggling task completion:"]
          end
       ++ [SetIsUpdating false])%list
  end.

Definition msPerDay : Z := 24 * 60 * 60 * 1000.

(** [isOverdue], [now] being the reading of [new Date()]. *)
Definition isOverdue (now : Timestamp) (task : Task) : bool :=
  match due_date task with
  | Some due => ((due <? now) && negb (completed task))%bool
  | None => false
  end.

(** [isDueSoon], [now] being the reading of [Date.now()]. *)
Definition isDueSoon (now : Timestamp) (task : Task) : bool :=
  match due_date task with
  | Some due => ((due <=? now + msPerDay) && negb (completed task))%bool
  | None => false
  end.

(** The colour class of the due date line. *)
Definition dueDateClass (now_overdue now_soon : Timestamp) (task : Task) : string :=
  if isOverdue now_overdue task then "text-red-600"
  else if isDueSoon now_soon task then "text-orange-600"
  else "text-gray-500".

End TaskItem.

(** ** Task list (components/tasks/TaskList.tsx) *)

Module TaskList.
Import error_handler.

Inductive FilterStatus := status_all | status_pending | status_completed.

Inductive SortBy := by_created_at | by_due_date | by_priority.

Record State := mkState {
  tasks : list Task;
  categories : list Category;
  isLoading : bool;
  loadingError : option string;
  searchTerm : string;
  filterStatus : FilterStatus;
  sortBy : SortBy;
  isFormOpen : bool;
  editingTask : option Task
}.

(** [setTasks(prev => f(prev))] *)
Definition setTasks (f : list Task -> list Task) (st : State) : State :=
  mkState (f (tasks st)) (categories st) (isLoading st) (loadingError st) (searchTerm st)
          (filterStatus st) (sortBy st) (isFormOpen st) (editingTask st).

(** The component takes its two toast functions by
    [const { showError, showSuccess } = useToast()].  The hook returns
    [toasts], [addToast], [removeToast], [clearToasts], [success],
    [error], [warning] and [info], and no member of either name: both
    constants are [undefined], and a call of one raises. *)
Definition not_a_function (name : string) : Js.Error :=
  Js.TypeError (name ++ " is not a function").

(** [handleTaskSave(savedTask)]: the call of [showSuccess] raises after
    [setTasks], so the two setters that would close the form are not
    reached. *)
Definition handleTaskSave (savedTask : Task) (st : State) : State * list Effect :=
  match editingTask st with
  | Some _ =>
      (setTasks (map (fun task =>
                        if (id task =? id savedTask)%string then savedTask else task)) st,
       [Raise (not_a_function "showSuccess")])
  | None =>
      (setTasks (fun prev => savedTask :: prev) st, [Raise (not_a_function "showSuccess")])
  end.

(** [handleTaskDelete(taskId)], [result] being what the awaited delete
    settles to.  An exception raised in the [try], that of a toast call
    included, is classified in the [catch], whose own call of [showError]
    raises in turn. *)
Definition handleTaskDelete (user : option User) (taskId : string)
    (result : Js.Completion (Postgrest.Response unit)) (st : State) : State * list Effect :=
  match user with
  | None => (st, [])
  | Some u =>
      match result with
      | Js.Normal r =>
          match Postgrest.error r with
          | Some _ =>
              (st, [Call (tasks_delete taskId (uid u)); Raise (not_a_function "showError")])
          | None =>
              (setTasks (filter (fun task => negb (id task =? taskId)%string)) st,
               [Call (tasks_delete taskId (uid u)); Raise (not_a_function "showError")])
          end
      | Js.Throw _ =>
          (st, [Call (tasks_delete taskId (uid u)); Raise (not_a_function "showError")])
      end
  end.

(** [{ ...task, completed }] *)
Definition with_completed (completed_ : bool) (task : Task) : Task :=
  mkTask (id task) (title task) (description task) completed_ (due_date task)
         (reminder_date task) (priority task) (category_id task) (user_id task)
         (created_at task) (updated_at task) (completed_at task).

(** [handleToggleComplete(taskId, completed)] *)
Definition handleToggleComplete (taskId : string) (completed_ : bool) (st : State) : State :=
  setTasks (map (fun task =>
                   if (id task =? taskId)%string then with_completed completed_ task
                   else task)) st.

(** The list reacting to what a child component reports. *)
Definition on_effect (st : State) (e : Effect) : State :=
  match e with
  | OnSave saved => fst (handleTaskSave saved st)
  | OnToggleComplete taskId completed_ => handleToggleComplete taskId completed_ st
  | _ => st
  end.

Definition after_effects (effs : list Effect) (st : State) : State :=
  fold_left on_effect effs st.

(** A click on the checkbox of [task]'s item, up to the list's state. *)
Definition toggle (user : option User) (isUpdating : bool) (task : Task)
    (result : Js.Completion (Postgrest.Response Task)) (st : State) : State :=
  after_effects (TaskItem.handleToggleComplete user isUpdating task result) st.


(** The search part of the filter callback. *)
Definition matches_search (searchTerm_ : string) (task : Task) : bool :=
  if Js.truthy searchTerm_ then
    let searchLower := Js.toLowerCase searchTerm_ in
    if (negb (Js.includes (Js.toLowerCase (title task)) searchLower) &&
        negb (match description task with
              | Some d => Js.includes (Js.toLowerCase d) searchLower
              | None => false
              end))%bool
    then false else true
  else true.

(** The status part of the filter callback. *)
Definition matches_status (filterStatus_ : FilterStatus) (task : Task) : bool :=
  match filterStatus_ with
  | status_pending => if completed task then false else true
  | status_completed => if negb (completed task) then false else true
  | status_all => true
  end.

(** The [.filter] callback: search first, then status. *)
Definition keep (searchTerm_ : string) (filterStatus_ : FilterStatus) (task : Task) : bool :=
  if matches_search searchTerm_ task then matches_status filterStatus_ task else false.

(** [priorityOrder[p]], [undefined] for a task without priority. *)
Definition priorityOrder (p : option Priority) : Js.Number :=
  match p with
  | Some high => Some 3
  | Some medium => Some 2
  | Some low => Some 1
  | None => None
  end.

(** The [.sort] callback. *)
Definition comparefn (sortBy_ : SortBy) (a b : Task) : Js.Number :=
  match sortBy_ with
  | by_due_date =>
      match due_date a, due_date b with
      | None, None => Some 0
      | None, Some _ => Some 1
      | Some _, None => Some (-1)
      | Some da, Some db => Some (da - db)
      end
  | by_priority => Js.sub (priorityOrder (priority b)) (priorityOrder (priority a))
  | by_created_at => Some (created_at b - created_at a)
  end.

Definition filterAndSort (searchTerm_ : string) (filterStatus_ : FilterStatus)
    (sortBy_ : SortBy) (l : list Task) : list Task :=
  Js.sort (comparefn sortBy_) (filter (keep searchTerm_ filterStatus_) l).

Definition filteredAndSortedTasks (st : State) : list Task :=
  filterAndSort (searchTerm st) (filterStatus st) (sortBy st) (tasks st).

(** The query [loadTasks] awaits: by category when a category is
    selected (a non-empty identifier), all tasks otherwise. *)
Inductive TaskQuery :=
| getByCategory (categoryId userId : string)
| getAll (userId : string).

Definition loadTasks_query (u : User) (selectedCategoryId : option string) : TaskQuery :=
  match selectedCategoryId with
  | Some c => if Js.truthy c then getByCategory c (uid u) else getAll (uid u)
  | None => getAll (uid u)
  end.

(** What the awaited query of [loadTasks] settles to, against a state of
    the service. *)
Definition run_query (q : TaskQuery) (db : Postgrest.Db) : Postgrest.Response (list Task) :=
  match q with
  | getByCategory c u => database.tasks.getByCategory c u db
  | getAll u => database.tasks.getAll u db
  end.

Definition setLoading (b : bool) (err : option string) (st : State) : State :=
  mkState (tasks st) (categories st) b err (searchTerm st) (filterStatus st) (sortBy st)
          (isFormOpen st) (editingTask st).

(** The [catch] of [loadTasks], entered with the exception [e]: it
    records the message [e] is classified to, and its call of [showError]
    raises; the [finally] lowers the loading flag on the way out. *)
Definition loadTasks_catch (e : Js.Error) (st : State) : State * list Effect :=
  let appError := handleSupabaseError (Some (Caught e)) (Some "Loading tasks") in
  (setLoading false (Some (message appError)) st, [Raise (not_a_function "showError")]).

(** [loadTasks()], [result] being what the awaited query settles to.  On
    an error in the response the [try] records the message of that error
    and calls [showError], which raises: the [catch] is entered with that
    exception. *)
Definition loadTasks (user : option User)
    (result : Js.Completion (Postgrest.Response (list Task))) (st : State)
  : State * list Effect :=
  match user with
  | None => (st, [])
  | Some _ =>
      let st := setLoading true None st in
      match result with
      | Js.Normal r =>
          match Postgrest.error r, Postgrest.data r with
          | Some err, _ =>
              let appError := handleSupabaseError (Some (OfResponse err)) (Some "Loading tasks") in
              loadTasks_catch (not_a_function "showError") (setLoading true (Some (message appError)) st)
          | None, Some rows => (setLoading false None (setTasks (fun _ => rows) st), [])
          | None, None => (setLoading false None st, [])
          end
      | Js.Throw e => loadTasks_catch e st
      end
  end.

(** [handleTaskEdit(task)] *)
Definition handleTaskEdit (task : Task) (st : State) : State :=
  mkState (tasks st) (categories st) (isLoading st) (loadingError st) (searchTerm st)
          (filterStatus st) (sortBy st) true (Some task).

(** The [categories] property [tasksWithCategories] adds to a task. *)
Definition category_of (cats : list Category) (task : Task) : option Category :=
  match category_id task with
  | Some c =>
      if Js.truthy c then find (fun cat => (cat_id cat =? c)%string) cats else None
  | None => None
  end.

Definition tasksWithCategories (st : State) : list (Task * option Category) :=
  map (fun task => (task, category_of (categories st) task)) (filteredAndSortedTasks st).

(** A submission of the form without local validation, up to the list's
    state. *)
Definition submit_plain (user : option User) (formLoading : bool)
    (formData : TaskForm.FormData) (result : Js.Completion (Postgrest.Response Task))
    (st : State) : State :=
  after_effects (TaskForm_plain.handleSubmit user formLoading (editingTask st) formData result)
                st.

End TaskList.

(** ** Category sidebar (components/categories/CategorySidebar.tsx) *)

Module CategorySidebar.

Record CategoryForm := mkCategoryForm {
  form_name : string;
  form_color : string;
  form_description : string
}.

Definition DEFAULT_COLORS : list string :=
  ["#3B82F6"; "#EF4444"; "#10B981"; "#F59E0B"; "#8B5CF6";
   "#EC4899"; "#06B6D4"; "#84CC16"; "#F97316"; "#6B7280"].

Definition emptyForm : CategoryForm := mkCategoryForm "" "#3B82F6" "".

(** The component's own state; the selection is a prop, owned by the
    page. *)
Record State := mkState {
  categories : list Category;
  isLoading : bool;
  isFormOpen : bool;
  editingCategory : option Category;
  formData : CategoryForm
}.

Definition initial : State := mkState [] true false None emptyForm.

Definition setCategories (f : list Category -> list Category) (st : State) : State :=
  mkState (f (categories st)) (isLoading st) (isFormOpen st) (editingCategory st)
          (formData st).

Definition setIsLoading (b : bool) (st : State) : State :=
  mkState (categories st) b (isFormOpen st) (editingCategory st) (formData st).

(** [loadCategories()], [result] being what the awaited
    [database.categories.getAll] settles to. *)
Definition loadCategories (user : option User)
    (result : Js.Completion (Postgrest.Response (list Category))) (st : State)
  : State * list Effect :=
  match user with
  | None => (st, [])
  | Some u =>
      let st := setIsLoading true st in
      match result with
      | Js.Normal r =>
          match Postgrest.error r, Postgrest.data r with
          | None, Some rows =>
              (setIsLoading false (setCategories (fun _ => rows) st),
               [Call (categories_getAll (uid u))])
          | _, _ => (setIsLoading false st, [Call (categories_getAll (uid u))])
          end
      | Js.Throw _ =>
          (setIsLoading false st,
           [Call (categories_getAll (uid u)); ConsoleError "Error loading categories:"])
      end
  end.

(** The effect on mount, [if (user) loadCategories()], against a given
    state of the service. *)
Definition mount (user : option User) (db : Postgrest.Db) : State * list Effect :=
  match user with
  | None => (initial, [])
  | Some u =>
      loadCategories user (Js.Normal (database.categories.getAll (uid u) db)) initial
  end.

(** [handleDelete(categoryId)], [result] being what the awaited
    [database.categories.delete] settles to. *)
Definition handleDelete (user : option User) (selectedCategoryId : option string)
    (categoryId : string) (result : Js.Completion (Postgrest.Response unit)) (st : State)
  : State * list Effect :=
  match user with
  | None => (st, [])
  | Some u =>
      match result with
      | Js.Normal r =>
          match Postgrest.error r with
          | None =>
              (setCategories (filter (fun cat => negb (cat_id cat =? categoryId)%string)) st,
               (Call (categories_delete categoryId (uid u))
                :: match selectedCategoryId with
                   | Some s =>
                       if (s =? categoryId)%string then [OnCategorySelect None] else []
                   | None => []
                   end)%list)
          | Some _ => (st, [Call (categories_delete categoryId (uid u))])
          end
      | Js.Throw _ =>
          (st, [Call (categories_delete categoryId (uid u));
                ConsoleError "Error deleting category:"])
      end
  end.

(** The page's [onCategorySelect]: [setSelectedCategoryId(categoryId)]. *)
Definition select_after (effs : list Effect) (selectedCategoryId : option string)
  : option string :=
  fold_left (fun sel e =>
               match e with
               | OnCategorySelect c => c
               | _ => sel
               end) effs selectedCategoryId.

(** The text nodes of the rendered sidebar, in document order. *)
Definition texts (st : State) : list string :=
  if isLoading st then ["Loading categories..."] else
  (["Categories"]
   ++ (if isFormOpen st then
         [match editingCategory st with
          | Some _ => "Edit Category"
          | None => "Create Category"
          end;
          "Name *"; "Description"; "Color"; "Cancel";
          match editingCategory st with
          | Some _ => "Update"
          | None => "Create"
          end]
       else [])
   ++ ["All Tasks"]
   ++ flat_map (fun category =>
                  cat_name category
                  :: match cat_description category with
                     | Some d => if Js.truthy d then [d] else []
                     | None => []
                     end) (categories st)
   ++ (if Nat.eqb (List.length (categories st)) 0
       then ["No categories yet"; "Add Category"] else []))%list.

Record CategoryData := mkCategoryData {
  cd_name : string;
  cd_color : string;
  cd_description : string;
  cd_user_id : string
}.

(** The call [handleSubmit] awaits. *)
Inductive Request :=
| create (categoryData : CategoryData)
| update (id_ : string) (categoryData : CategoryData) (userId : string).

Definition request_of (u : User) (st : State) : Request :=
  let categoryData :=
    mkCategoryData (Js.trim (form_name (formData st))) (form_color (formData st))
                   (Js.trim (form_description (formData st))) (uid u) in
  match editingCategory st with
  | Some c => update (cat_id c) categoryData (uid u)
  | None => create categoryData
  end.

(** [handleCloseForm()] *)
Definition handleCloseForm (st : State) : State :=
  mkState (categories st) (isLoading st) false None emptyForm.

(** [handleEdit(category)] *)
Definition handleEdit (category : Category) (st : State) : State :=
  mkState (categories st) (isLoading st) true (Some category)
          (mkCategoryForm (cat_name category) (cat_color category)
             (match cat_description category with
              | Some d => d
              | None => ""
              end)).

(** [handleSubmit(e)], [result] being what the awaited create or update
    settles to. *)
Definition handleSubmit (user : option User)
    (result : Js.Completion (Postgrest.Response Category)) (st : State)
  : State * list Effect :=
  match user with
  | None => (st, [])
  | Some _ =>
      match result with
      | Js.Normal r =>
          match Postgrest.error r, Postgrest.data r with
          | None, Some row =>
              (handleCloseForm
                 (setCategories
                    (match editingCategory st with
                     | Some _ =>
                         map (fun cat => if (cat_id cat =? cat_id row)%string then row else cat)
                     | None => fun prev => (prev ++ [row])%list
                     end) st),
               [])
          | _, _ => (st, [])
          end
      | Js.Throw _ => (st, [ConsoleError "Error saving category:"])
      end
  end.

End CategorySidebar.

(** ** Route gating (lib/middleware.ts) *)

Module routes.

Inductive Outcome :=
| Next
| Redirect (pathname : string).

Definition protectedRoutes : list string := ["/dashboard"].

(** [middleware(req)], for a request with or without a session. *)
Definition middleware (session : bool) (pathname : string) : Outcome :=
  if session then
    if Js.startsWith pathname "/auth" then Redirect "/dashboard" else Next
  else
    if existsb (fun route => Js.startsWith pathname route) protectedRoutes
    then Redirect "/auth/login" else Next.

End routes.

(** ** Vocabulary of the specification

    The words the specification uses about the derived view, stated
    independently of the code above. *)

(** A capital letter, by its code unit: A to Z, or an accented capital
    from 192 to 222 (215 is the multiplication sign); its small letter
    is the code unit 32 further on. *)
Definition capital (n : nat) : Prop :=
  (65 <= n <= 90)%nat \/ ((192 <= n <= 222)%nat /\ n <> 215%nat).

(** Two characters are the same letter, case ignored: they are equal, or
    one is a capital and the other its small letter. *)
Definition same_letter (a b : ascii) : Prop :=
  let n := nat_of_ascii a in
  let m := nat_of_ascii b in
  n = m \/ (capital n /\ m = (n + 32)%nat) \/ (capital m /\ n = (m + 32)%nat).

(** Two strings are equal, case ignored: they have the same length and
    the same letter at every position. *)
Fixpoint equal_ignoring_case (s t : string) : Prop :=
  match s, t with
  | EmptyString, EmptyString => True
  | String a s', String b t' => same_letter a b /\ equal_ignoring_case s' t'
  | _, _ => False
  end.

(** [field] contains [term] as a substring, letter case ignored: some
    part of [field] equals [term], case ignored. *)
Definition contains_ignoring_case (field term : string) : Prop :=
  exists pre part suf : string,
    field = pre ++ part ++ suf /\ equal_ignoring_case part term.


(** [a] may stand before [b] in a list ordered by due date: ascending
    timestamps, tasks without a due date after all the others. *)
Definition due_date_ordered (a b : Task) : Prop :=
  match due_date a, due_date b with
  | Some da, Some db => da <= db
  | Some _, None => True
  | None, Some _ => False
  | None, None => True
  end.

(** The rank of a priority. *)
Definition rank (p : Priority) : Z :=
  match p with
  | high => 3
  | medium => 2
  | low => 1
  end.

(** Every task of priority [p] stands before every task of priority [q]. *)
Definition all_precede (p q : Priority) (l : list Task) : Prop :=
  forall (i j : nat) (a b : Task),
    nth_error l i = Some a -> nth_error l j = Some b ->
    priority a = Some p -> priority b = Some q -> (i < j)%nat.

(** A list in which every row with the identifier of [row] is replaced
    by [row]. *)
Definition replaced_by (row : Task) (l : list Task) : list Task :=
  map (fun t => if (id t =? id row)%string then row else t) l.

(** A string made of white space only (the empty string included). *)
Fixpoint all_white_space (s : string) : bool :=
  match s with
  | EmptyString => true
  | String c s' => (Js.isWhiteSpace c && all_white_space s')%bool
  end.

(** The key [field] is absent from [data]. *)
Definition absent (data : list (string * error_handler.Value)) (field : string) : Prop :=
  forall k v, In (k, v) data -> k <> field.

(** A time zone on the clock rules of New York in 2024: five hours behind
    UTC, four from 10 March 07:00 UTC to 3 November 06:00 UTC.  A local
    time the clocks skip (02:00 to 03:00 on 10 March) is read with the
    offset before the change, a local time they show twice (01:00 to
    02:00 on 3 November) as its first occurrence. *)
Definition new_york_2024 : Js.Zone :=
  Js.mkZone
    (fun t => if t <? 1710054000000 then -18000000
              else if t <? 1730613600000 then -14400000 else -18000000)
    (fun l => if l <? 1710039600000 then -18000000
              else if l <? 1730599200000 then -14400000 else -18000000).

(** ** Sample rows *)

Definition plain_task (id_ title_ : string) (completed_ : bool) : Task :=
  mkTask id_ title_ None completed_ None None None None "user1" 0 0 None.

Definition due_task (id_ : string) (due : option Timestamp) : Task :=
  mkTask id_ id_ None false due None None None "user1" 0 0 None.

Definition priority_task (id_ : string) (p : option Priority) : Task :=
  mkTask id_ id_ None false None None p None "user1" 0 0 None.

Definition groceries : Task := plain_task "1" "Buy groceries" false.

Definition walk_dog : Task :=
  mkTask "2" "Walk dog" (Some "Around the PARK") true None None None None "user1" 0 0 None.

(** The orders the two sorts use, as boolean tests. *)
Definition due_before (a b : Task) : bool :=
  Js.SortCompare (TaskList.comparefn TaskList.by_due_date) a b <=? 0.

Definition priority_before (a b : Task) : bool :=
  Js.SortCompare (TaskList.comparefn TaskList.by_priority) a b <=? 0.


Definition created_before (a b : Task) : bool :=
  Js.SortCompare (TaskList.comparefn TaskList.by_created_at) a b <=? 0.

(** [a] may stand before [b] in a list ordered newest first. *)
Definition newest_first (a b : Task) : Prop := created_at b <= created_at a.

(** The answer of a list query: no error and the rows that [sel] picks
    from the table, newest first. *)
Definition run_query_result (q : TaskList.TaskQuery) (db : Postgrest.Db)
    (sel : Task -> bool) : Prop :=
  exists rows,
    TaskList.run_query q db = Postgrest.mkResponse (Some rows) None
    /\ rows = stable_sort (fun a b => created_at b <=? created_at a)
                    (filter sel (Postgrest.tasks_table db)).


(** A task that carries a priority, and the rank it then has. *)
Definition has_priority (t : Task) : Prop := priority t <> None.

Definition rank_of (t : Task) : Z :=
  match priority t with
  | Some p => rank p
  | None => 0
  end.

(** Two forms that break a validation rule. *)
Definition late_reminder_form : TaskForm.FormData :=
  TaskForm.mkFormData "Write report" "" "" (Some 1000) (Some 2000) medium.

Definition blank_title_form : TaskForm.FormData :=
  TaskForm.mkFormData "   " "" "" None None medium.

(** The categories and tasks of the sidebar's test. *)
Definition test_categories : list Category :=
  [mkCategory "cat1" "Work" "#3B82F6" None "user1";
   mkCategory "cat2" "Personal" "#10B981" None "user1";
   mkCategory "cat3" "Shopping" "#F59E0B" None "user1"].

Definition test_tasks : list Task :=
  [mkTask "1" "Work Task" None false None None None (Some "cat1") "user1" 0 0 None;
   mkTask "2" "Personal Task" None true None None None (Some "cat2") "user1" 0 0 None;
   mkTask "3" "Another Work Task" None false None None None (Some "cat1") "user1" 0 0 None].

(** A task list holding the given rows, its form closed or editing. *)
Definition list_state (ts : list Task) (editing : option Task) : TaskList.State :=
  TaskList.mkState ts [] false None "" TaskList.status_all TaskList.by_created_at
                   false editing.

(** * Properties *)

(** ** Stable insertion sort *)

Section StableSortFacts.
Context {A : Type} (before : A -> A -> bool).

Lemma insert_perm (x : A) (l : list A) : Permutation (insert before x l) (x :: l).
Proof.
  induction l as [|y l IH]; simpl.
  - apply Permutation_refl.
  - destruct (before x y).
    + apply Permutation_refl.
    + eapply perm_trans; [apply perm_skip, IH | apply perm_swap].
Qed.

Lemma stable_sort_perm (l : list A) : Permutation (stable_sort before l) l.
Proof.
  induction l as [|x l IH]; simpl.
  - constructor.
  - eapply perm_trans; [apply insert_perm | apply perm_skip, IH].
Qed.

Lemma insert_in (x y : A) (l : list A) : In y (insert before x l) <-> y = x \/ In y l.
Proof.
  induction l as [|z l IH]; simpl.
  - intuition congruence.
  - destruct (before x z); simpl; [intuition congruence|].
    rewrite IH. intuition congruence.
Qed.

(** The order need only be total and transitive on the elements that
    occur, those of a class [P]. *)
Variable P : A -> Prop.
Hypothesis before_total : forall x y, P x -> P y -> before x y = false -> before y x = true.
Hypothesis before_trans :
  forall x y z, P x -> P y -> P z ->
                before x y = true -> before y z = true -> before x z = true.

Let R (x y : A) : Prop := before x y = true.

Lemma insert_sorted (x : A) (l : list A) :
  P x -> Forall P l -> StronglySorted R l -> StronglySorted R (insert before x l).
Proof.
  intros Px HP Hs. induction Hs as [|y l Hs IH Hall]; simpl.
  - repeat constructor.
  - inversion HP as [|? ? Py HPl]; subst.
    destruct (before x y) eqn:E.
    + constructor; [constructor; assumption|].
      constructor; [exact E|].
      rewrite Forall_forall in Hall, HPl |- *. intros z Hz.
      apply (before_trans x y z); [exact Px | exact Py | apply HPl, Hz | exact E | apply Hall, Hz].
    + constructor; [exact (IH HPl)|].
      rewrite Forall_forall in Hall |- *. intros z Hz.
      apply insert_in in Hz. destruct Hz as [->|Hz].
      * apply before_total; [exact Px | exact Py | exact E].
      * apply Hall, Hz.
Qed.

Lemma stable_sort_sorted (l : list A) :
  Forall P l -> StronglySorted R (stable_sort before l).
Proof.
  induction l as [|x l IH]; simpl; intros HP.
  - constructor.
  - inversion HP as [|? ? Px HPl]; subst.
    apply insert_sorted; [exact Px | | exact (IH HPl)].
    eapply Permutation_Forall; [apply Permutation_sym, stable_sort_perm | exact HPl].
Qed.

End StableSortFacts.

(** In a strongly sorted list, an earlier position is related to every
    later one. *)
Lemma StronglySorted_nth {A : Type} (R : A -> A -> Prop) (l : list A) :
  StronglySorted R l ->
  forall (i j : nat) (a b : A),
    (i < j)%nat -> nth_error l i = Some a -> nth_error l j = Some b -> R a b.
Proof.
  induction 1 as [|x l Hs IH Hall]; intros i j a b Hij Hi Hj.
  - destruct i; discriminate.
  - destruct j as [|j]; [lia|].
    destruct i as [|i]; simpl in *.
    + injection Hi as <-. rewrite Forall_forall in Hall.
      apply Hall. eapply nth_error_In, Hj.
    + eapply IH; [|exact Hi|exact Hj]. lia.
Qed.

(** ** Strings *)

Example toLowerCase_run : Js.toLowerCase "Buy Groceries, 2x!" = "buy groceries, 2x!".
Proof. reflexivity. Qed.

(** The accented capitals fold, the multiplication sign and the sharp s
    do not. *)
Example toLowerCase_latin1 :
  map (fun n => nat_of_ascii (Js.lower_char (ascii_of_nat n)))
      [192; 201; 214; 215; 216; 222; 223; 233; 255]%nat
  = [224; 233; 246; 215; 248; 254; 223; 233; 255]%nat.
Proof. reflexivity. Qed.

Example trim_run :
  Js.trim "  write  report  " = "write  report" /\ Js.trim "   " = "" /\ Js.trim "" = "".
Proof. repeat split. Qed.

Example includes_run :
  Js.includes "buy groceries" "grocer" = true
  /\ Js.includes "buy groceries" "" = true
  /\ Js.includes "" "a" = false
  /\ Js.includes "walk dog" "dogs" = false.
Proof. repeat split. Qed.

Lemma startsWith_spec (s p : string) :
  Js.startsWith s p = true <-> exists suf, s = p ++ suf.
Proof.
  revert s; induction p as [|a p IH]; intros s; simpl.
  - split; [intros _; exists s; reflexivity | reflexivity].
  - destruct s as [|b s]; simpl.
    + split; [discriminate | intros [suf H]; discriminate].
    + rewrite andb_true_iff, IH, Ascii.eqb_eq. split.
      * intros [-> [suf ->]]. exists suf; reflexivity.
      * intros [suf H]. injection H as -> ->. split; [reflexivity | exists suf; reflexivity].
Qed.

Lemma includes_spec (s sub : string) :
  Js.includes s sub = true <-> exists pre suf, s = pre ++ sub ++ suf.
Proof.
  induction s as [|c s IH]; simpl.
  - rewrite orb_false_r, startsWith_spec. split.
    + intros [suf H]. exists "", suf. exact H.
    + intros [pre [suf H]]. destruct pre; simpl in H; [exists suf; exact H | discriminate].
  - rewrite orb_true_iff, startsWith_spec, IH. split.
    + intros [[suf H] | [pre [suf H]]].
      * exists "", suf. exact H.
      * exists (String c pre), suf. simpl. rewrite H. reflexivity.
    + intros [pre [suf H]]. destruct pre as [|d pre]; simpl in H.
      * left. exists suf. exact H.
      * right. injection H as _ H. exists pre, suf. exact H.
Qed.

(** Folding: two characters fold to the same character exactly when they
    are the same letter. *)
Lemma lower_char_code (c : ascii) :
  nat_of_ascii (Js.lower_char c)
  = (if ((Nat.leb 65 (nat_of_ascii c) && Nat.leb (nat_of_ascii c) 90)
         || (Nat.leb 192 (nat_of_ascii c) && Nat.leb (nat_of_ascii c) 222
             && negb (Nat.eqb (nat_of_ascii c) 215)))%bool
     then nat_of_ascii c + 32 else nat_of_ascii c)%nat.
Proof.
  unfold Js.lower_char. cbv zeta.
  pose proof (nat_ascii_bounded c) as B.
  destruct (Nat.leb 65 (nat_of_ascii c)) eqn:E1, (Nat.leb (nat_of_ascii c) 90) eqn:E2,
           (Nat.leb 192 (nat_of_ascii c)) eqn:E3, (Nat.leb (nat_of_ascii c) 222) eqn:E4,
           (Nat.eqb (nat_of_ascii c) 215) eqn:E5; simpl; try reflexivity;
    apply nat_ascii_embedding;
    repeat match goal with
           | H : Nat.leb _ _ = true |- _ => apply Nat.leb_le in H
           | H : Nat.leb _ _ = false |- _ => apply Nat.leb_gt in H
           end; lia.
Qed.

Lemma nat_of_ascii_inj (a b : ascii) : nat_of_ascii a = nat_of_ascii b -> a = b.
Proof.
  intros H. rewrite <- (ascii_nat_embedding a), <- (ascii_nat_embedding b), H. reflexivity.
Qed.

Lemma lower_char_capital (c : ascii) :
  (capital (nat_of_ascii c) -> nat_of_ascii (Js.lower_char c) = (nat_of_ascii c + 32)%nat)
  /\ (~ capital (nat_of_ascii c) -> nat_of_ascii (Js.lower_char c) = nat_of_ascii c).
Proof.
  rewrite lower_char_code. unfold capital.
  destruct (Nat.leb 65 (nat_of_ascii c)) eqn:E1, (Nat.leb (nat_of_ascii c) 90) eqn:E2,
           (Nat.leb 192 (nat_of_ascii c)) eqn:E3, (Nat.leb (nat_of_ascii c) 222) eqn:E4,
           (Nat.eqb (nat_of_ascii c) 215) eqn:E5; simpl;
    repeat match goal with
           | E : Nat.leb _ _ = true |- _ => apply Nat.leb_le in E
           | E : Nat.leb _ _ = false |- _ => apply Nat.leb_gt in E
           | E : Nat.eqb _ _ = true |- _ => apply Nat.eqb_eq in E
           | E : Nat.eqb _ _ = false |- _ => apply Nat.eqb_neq in E
           end; lia.
Qed.

Lemma lower_char_same_letter (a b : ascii) :
  Js.lower_char a = Js.lower_char b <-> same_letter a b.
Proof.
  destruct (lower_char_capital a) as [Ca Na], (lower_char_capital b) as [Cb Nb].
  assert (Da : capital (nat_of_ascii a) \/ ~ capital (nat_of_ascii a))
    by (unfold capital; lia).
  assert (Db : capital (nat_of_ascii b) \/ ~ capital (nat_of_ascii b))
    by (unfold capital; lia).
  unfold same_letter. cbv zeta. split.
  - intros H. apply (f_equal nat_of_ascii) in H.
    destruct Da as [Da|Da], Db as [Db|Db];
      [rewrite (Ca Da), (Cb Db) in H | rewrite (Ca Da), (Nb Db) in H
       | rewrite (Na Da), (Cb Db) in H | rewrite (Na Da), (Nb Db) in H];
      unfold capital in *; lia.
  - intros H. apply nat_of_ascii_inj.
    destruct Da as [Da|Da], Db as [Db|Db];
      [rewrite (Ca Da), (Cb Db) | rewrite (Ca Da), (Nb Db)
       | rewrite (Na Da), (Cb Db) | rewrite (Na Da), (Nb Db)];
      unfold capital in *; lia.
Qed.

Lemma toLowerCase_equal (s t : string) :
  Js.toLowerCase s = Js.toLowerCase t <-> equal_ignoring_case s t.
Proof.
  revert t. induction s as [|a s IH]; intros [|b t]; simpl; try (split; [discriminate | tauto]).
  - tauto.
  - rewrite <- IH, <- lower_char_same_letter. split.
    + intros H. injection H as H1 H2. split; assumption.
    + intros [H1 H2]. rewrite H1, H2. reflexivity.
Qed.

Lemma toLowerCase_app (s t : string) :
  Js.toLowerCase (s ++ t) = Js.toLowerCase s ++ Js.toLowerCase t.
Proof. induction s as [|a s IH]; simpl; [reflexivity | rewrite IH; reflexivity]. Qed.

(** A folded string splits where the string it comes from splits. *)
Lemma toLowerCase_split (s x y : string) :
  Js.toLowerCase s = x ++ y ->
  exists s1 s2, s = s1 ++ s2 /\ Js.toLowerCase s1 = x /\ Js.toLowerCase s2 = y.
Proof.
  revert s. induction x as [|c x IH]; intros s H; simpl in H.
  - exists "", s. repeat split. exact H.
  - destruct s as [|a s]; [discriminate|]. simpl in H. injection H as Hc H.
    destruct (IH s H) as [s1 [s2 [E [H1 H2]]]].
    exists (String a s1), s2. simpl. rewrite E, H1, Hc. repeat split. exact H2.
Qed.

Lemma includes_ignoring_case (field term : string) :
  Js.includes (Js.toLowerCase field) (Js.toLowerCase term) = true
  <-> contains_ignoring_case field term.
Proof.
  rewrite includes_spec. unfold contains_ignoring_case. split.
  - intros [pre [suf H]].
    destruct (toLowerCase_split _ _ _ H) as [s1 [s2 [E [_ H2]]]].
    destruct (toLowerCase_split _ _ _ H2) as [part [rest [E2 [Hp _]]]].
    exists s1, part, rest. split; [rewrite E, E2; reflexivity|].
    apply toLowerCase_equal, Hp.
  - intros [pre [part [suf [E Hp]]]]. apply toLowerCase_equal in Hp.
    exists (Js.toLowerCase pre), (Js.toLowerCase suf).
    rewrite E, !toLowerCase_app, Hp. reflexivity.
Qed.

(** The search hit of the scenario, read off the definition: the part
    "grocer" of the title equals the term "GROCER", case ignored. *)
Example GROCER_is_in_the_title : contains_ignoring_case "Buy groceries" "GROCER".
Proof.
  exists "Buy ", "grocer", "ies". split; [reflexivity|].
  compute. lia.
Qed.

Example grocer_is_not_in_the_other_title : ~ contains_ignoring_case "Walk dog" "GROCER".
Proof. rewrite <- includes_ignoring_case. discriminate. Qed.

(** ** The derived view of the task list *)



Lemma keep_no_filter (l : list Task) : filter (TaskList.keep "" TaskList.status_all) l = l.
Proof.
  induction l as [|t l IH]; simpl; [reflexivity|]. rewrite IH. reflexivity.
Qed.

Lemma filterAndSort_perm (term : string) (f : TaskList.FilterStatus) (o : TaskList.SortBy)
    (l : list Task) :
  Permutation (TaskList.filterAndSort term f o l) (filter (TaskList.keep term f) l).
Proof. unfold TaskList.filterAndSort, Js.sort. apply stable_sort_perm. Qed.

Lemma filterAndSort_in (term : string) (f : TaskList.FilterStatus) (o : TaskList.SortBy)
    (l : list Task) (t : Task) :
  In t (TaskList.filterAndSort term f o l) <-> In t l /\ TaskList.keep term f t = true.
Proof.
  rewrite <- filter_In. split; apply Permutation_in.
  - apply filterAndSort_perm.
  - apply Permutation_sym, filterAndSort_perm.
Qed.

Example search_is_case_insensitive :
  filter (TaskList.keep "GROCER" TaskList.status_all) [groceries; walk_dog] = [groceries]
  /\ filter (TaskList.keep "park" TaskList.status_all) [groceries; walk_dog] = [walk_dog]
  /\ filter (TaskList.keep "cat" TaskList.status_all) [groceries; walk_dog] = [].
Proof. repeat split; reflexivity. Qed.



Lemma keep_status (term : string) (f : TaskList.FilterStatus) (t : Task) :
  TaskList.keep term f t =
  (TaskList.keep term TaskList.status_all t &&
   match f with
   | TaskList.status_all => true
   | TaskList.status_pending => Bool.eqb (completed t) false
   | TaskList.status_completed => Bool.eqb (completed t) true
   end)%bool.
Proof.
  unfold TaskList.keep, TaskList.matches_status.
  destruct (TaskList.matches_search term t), f, (completed t); reflexivity.
Qed.

Lemma filter_keep_status (term : string) (f : TaskList.FilterStatus) (l : list Task) :
  filter (TaskList.keep term f) l =
  filter (fun t => match f with
                   | TaskList.status_all => true
                   | TaskList.status_pending => Bool.eqb (completed t) false
                   | TaskList.status_completed => Bool.eqb (completed t) true
                   end)
         (filter (TaskList.keep term TaskList.status_all) l).
Proof.
  induction l as [|t l IH]; simpl; [reflexivity|].
  rewrite (keep_status term f t).
  destruct (TaskList.keep term TaskList.status_all t); simpl; rewrite IH; reflexivity.
Qed.

Lemma partition_perm {A : Type} (p : A -> bool) (l : list A) :
  Permutation (filter p l ++ filter (fun x => negb (p x)) l) l.
Proof.
  induction l as [|x l IH]; simpl; [constructor|].
  destruct (p x); simpl.
  - apply perm_skip, IH.
  - eapply perm_trans; [apply Permutation_sym, Permutation_middle | apply perm_skip, IH].
Qed.

Example pending_scenario :
  TaskList.filterAndSort "" TaskList.status_pending TaskList.by_created_at
    [plain_task "1" "Buy groceries" false; plain_task "2" "Walk dog" true]
  = [plain_task "1" "Buy groceries" false].
Proof. reflexivity. Qed.

(** C6.  Under every search term, the status filter with value pending
    keeps exactly the tasks that are not completed, with value completed
    exactly the completed ones, and with value all it keeps every task
    (the whole list when no search term is set); the pending and the
    completed results share no task and together are the result under
    all. *)
Theorem status_filter_partitions :
  forall (term : string) (l : list Task),
    let shown f := filter (TaskList.keep term f) l in
    shown TaskList.status_pending
      = filter (fun t => Bool.eqb (completed t) false) (shown TaskList.status_all)
    /\ shown TaskList.status_completed
        = filter (fun t => Bool.eqb (completed t) true) (shown TaskList.status_all)
    /\ filter (TaskList.keep "" TaskList.status_all) l = l
    /\ (forall t, ~ (In t (shown TaskList.status_pending)
                     /\ In t (shown TaskList.status_completed)))
    /\ Permutation (shown TaskList.status_pending ++ shown TaskList.status_completed)
                   (shown TaskList.status_all).
Proof.
  intros term l shown. unfold shown.
  split; [apply (filter_keep_status term TaskList.status_pending)|].
  split; [apply (filter_keep_status term TaskList.status_completed)|].
  split; [apply keep_no_filter|].
  split.
  - intros t [Hp Hc].
    rewrite (filter_keep_status term TaskList.status_pending), filter_In in Hp.
    rewrite (filter_keep_status term TaskList.status_completed), filter_In in Hc.
    destruct Hp as [_ Hp], Hc as [_ Hc]. destruct (completed t); discriminate.
  - rewrite (filter_keep_status term TaskList.status_pending),
            (filter_keep_status term TaskList.status_completed).
    rewrite (filter_ext (fun t => Bool.eqb (completed t) true)
                        (fun t => negb (Bool.eqb (completed t) false))).
    + apply (partition_perm (fun t => Bool.eqb (completed t) false)).
    + intros t. destruct (completed t); reflexivity.
Qed.

(** ** Sorting the view *)

(** Elements that tie with one another keep their places among
    themselves. *)
Lemma stable_sort_stable {A : Type} (before : A -> A -> bool) (p : A -> bool) :
  (forall x y, p x = true -> p y = true -> before x y = true) ->
  forall l, filter p (stable_sort before l) = filter p l.
Proof.
  intros Htie.
  assert (Hins : forall x s, filter p (insert before x s) = filter p (x :: s)).
  { intros x s. induction s as [|y s IH]; [reflexivity|].
    simpl insert. destruct (before x y) eqn:E; [reflexivity|].
    simpl in *. destruct (p y) eqn:Py.
    - destruct (p x) eqn:Px.
      + rewrite (Htie x y Px Py) in E. discriminate.
      + rewrite IH. reflexivity.
    - exact IH. }
  induction l as [|x l IH]; [reflexivity|].
  simpl stable_sort. rewrite Hins. simpl. rewrite IH. reflexivity.
Qed.

Lemma due_before_spec (a b : Task) : due_before a b = true <-> due_date_ordered a b.
Proof.
  unfold due_before, due_date_ordered, Js.SortCompare, TaskList.comparefn.
  destruct (due_date a) as [da|], (due_date b) as [db|]; rewrite Z.leb_le;
    intuition lia.
Qed.

Lemma due_before_total (a b : Task) : due_before a b = false -> due_before b a = true.
Proof.
  intros H. apply due_before_spec.
  assert (N : ~ due_date_ordered a b) by (rewrite <- due_before_spec; congruence).
  unfold due_date_ordered in *.
  destruct (due_date a), (due_date b); try tauto; lia.
Qed.

Lemma due_before_trans (a b c : Task) :
  due_before a b = true -> due_before b c = true -> due_before a c = true.
Proof.
  rewrite !due_before_spec. unfold due_date_ordered.
  destruct (due_date a), (due_date b), (due_date c); try tauto; lia.
Qed.

Lemma StronglySorted_weaken {A : Type} (R S : A -> A -> Prop) (l : list A) :
  (forall a b, R a b -> S a b) -> StronglySorted R l -> StronglySorted S l.
Proof.
  intros HRS. induction 1 as [|x l Hs IH Hall]; constructor; [exact IH|].
  eapply Forall_impl; [|exact Hall]. intros b. apply HRS.
Qed.

Lemma sorted_by_due_date (l : list Task) :
  StronglySorted due_date_ordered (Js.sort (TaskList.comparefn TaskList.by_due_date) l).
Proof.
  eapply StronglySorted_weaken;
    [| apply (stable_sort_sorted due_before (fun _ => True)
                (fun a b _ _ => due_before_total a b)
                (fun a b c _ _ _ => due_before_trans a b c));
       apply Forall_forall; trivial].
  intros a b H. apply due_before_spec, H.
Qed.

Example due_date_sort_run :
  map id (Js.sort (TaskList.comparefn TaskList.by_due_date)
            [due_task "a" None; due_task "b" (Some 50); due_task "c" None;
             due_task "d" (Some 20)])
  = ["d"; "b"; "a"; "c"].
Proof. reflexivity. Qed.

(** C3.  Sorting by due date returns the filtered tasks, rearranged, in
    ascending order of their due timestamp with the tasks that have no due
    date after all the others: at any two positions of the output the
    earlier task is not without a due date while the later one has one,
    and when both have one the earlier is due no later.  Two tasks without
    a due date compare equal, and keep the order they had. *)
Theorem due_date_sort_is_ascending_nulls_last :
  forall (term : string) (f : TaskList.FilterStatus) (l : list Task),
    let out := TaskList.filterAndSort term f TaskList.by_due_date l in
    Permutation out (filter (TaskList.keep term f) l)
    /\ StronglySorted due_date_ordered out
    /\ (forall i j a b,
          (i < j)%nat -> nth_error out i = Some a -> nth_error out j = Some b ->
          match due_date a, due_date b with
          | Some da, Some db => da <= db
          | None, Some _ => False
          | _, None => True
          end)
    /\ (forall a b, due_date a = None -> due_date b = None ->
                    TaskList.comparefn TaskList.by_due_date a b = Some 0)
    /\ filter (fun t => match due_date t with None => true | Some _ => false end) out
       = filter (fun t => match due_date t with None => true | Some _ => false end)
                (filter (TaskList.keep term f) l).
Proof.
  intros term f l out.
  split; [apply filterAndSort_perm|].
  split; [apply sorted_by_due_date|].
  split.
  - intros i j a b Hij Hi Hj.
    pose proof (StronglySorted_nth _ _ (sorted_by_due_date _) i j a b Hij Hi Hj) as H.
    unfold due_date_ordered in H. destruct (due_date a), (due_date b); tauto.
  - split.
    + intros a b Ha Hb. unfold TaskList.comparefn. rewrite Ha, Hb. reflexivity.
    + unfold out, TaskList.filterAndSort, Js.sort. apply stable_sort_stable.
      intros x y Hx Hy. unfold Js.SortCompare, TaskList.comparefn.
      destruct (due_date x), (due_date y); try discriminate. reflexivity.
Qed.

(** The claim at work on a list that holds a task without due date first. *)
Lemma due_date_sort_witness :
  nth_error (TaskList.filterAndSort "" TaskList.status_all TaskList.by_due_date
               [due_task "a" None; due_task "b" (Some 50); due_task "d" (Some 20)]) 0
    = Some (due_task "d" (Some 20))
  /\ nth_error (TaskList.filterAndSort "" TaskList.status_all TaskList.by_due_date
                  [due_task "a" None; due_task "b" (Some 50); due_task "d" (Some 20)]) 1
     = Some (due_task "b" (Some 50))
  /\ 20 <= 50.
Proof.
  split; [reflexivity|]. split; [reflexivity|].
  exact (proj1 (proj2 (proj2
           (due_date_sort_is_ascending_nulls_last "" TaskList.status_all
              [due_task "a" None; due_task "b" (Some 50); due_task "d" (Some 20)])))
           0%nat 1%nat (due_task "d" (Some 20)) (due_task "b" (Some 50))
           (le_n 1) eq_refl eq_refl).
Defined.

Lemma priority_before_spec (a b : Task) :
  has_priority a -> has_priority b ->
  (priority_before a b = true <-> rank_of b <= rank_of a).
Proof.
  unfold has_priority, priority_before, rank_of, Js.SortCompare, TaskList.comparefn,
    Js.sub, TaskList.priorityOrder.
  destruct (priority a) as [[]|], (priority b) as [[]|]; simpl; intros Ha Hb;
    try congruence; rewrite Z.leb_le; lia.
Qed.

Lemma sorted_by_priority (l : list Task) :
  Forall has_priority l ->
  StronglySorted (fun a b => rank_of b <= rank_of a)
                 (Js.sort (TaskList.comparefn TaskList.by_priority) l).
Proof.
  intros HP.
  assert (HP' : Forall has_priority (Js.sort (TaskList.comparefn TaskList.by_priority) l)).
  { eapply Permutation_Forall; [apply Permutation_sym, stable_sort_perm | exact HP]. }
  assert (S : StronglySorted (fun a b => priority_before a b = true)
                (Js.sort (TaskList.comparefn TaskList.by_priority) l)).
  { apply (stable_sort_sorted priority_before has_priority); [| | exact HP].
    - intros x y Px Py H. apply priority_before_spec; [exact Py | exact Px |].
      assert (N : ~ rank_of y <= rank_of x).
      { rewrite <- (priority_before_spec x y Px Py). congruence. }
      lia.
    - intros x y z Px Py Pz. rewrite !priority_before_spec by assumption. lia. }
  revert HP' S. generalize (Js.sort (TaskList.comparefn TaskList.by_priority) l).
  intros s HP' S. induction S as [|x s Ss IH Hall]; constructor.
  - apply IH. inversion HP'; assumption.
  - inversion HP' as [|? ? Px HPs]; subst.
    rewrite Forall_forall in *. intros y Hy.
    apply priority_before_spec; [exact Px | apply HPs, Hy | apply Hall, Hy].
Qed.

Lemma sorted_all_precede (p q : Priority) (l : list Task) :
  rank q < rank p ->
  StronglySorted (fun a b => rank_of b <= rank_of a) l -> all_precede p q l.
Proof.
  intros Hpq Hs i j a b Hi Hj Ha Hb.
  destruct (Nat.lt_trichotomy i j) as [Hlt | [Heq | Hgt]]; [exact Hlt | |]; exfalso.
  - subst j. rewrite Hi in Hj. injection Hj as <-. rewrite Ha in Hb.
    injection Hb as <-. lia.
  - pose proof (StronglySorted_nth _ _ Hs j i b a Hgt Hj Hi) as H. simpl in H.
    unfold rank_of in H. rewrite Ha, Hb in H. lia.
Qed.

(** When every task carries a priority, the priority order is descending
    by rank: high before medium before low. *)
Theorem priority_sort_descending_when_all_have_priority :
  forall (term : string) (f : TaskList.FilterStatus) (l : list Task),
    Forall has_priority l ->
    let out := TaskList.filterAndSort term f TaskList.by_priority l in
    Permutation out (filter (TaskList.keep term f) l)
    /\ all_precede high medium out
    /\ all_precede medium low out
    /\ all_precede high low out.
Proof.
  intros term f l HP out.
  assert (S : StronglySorted (fun a b => rank_of b <= rank_of a) out).
  { apply sorted_by_priority. rewrite Forall_forall in *. intros t Ht.
    apply filter_In in Ht. apply HP, Ht. }
  split; [apply filterAndSort_perm|].
  repeat split; apply sorted_all_precede; simpl; try lia; exact S.
Qed.

Lemma priority_sort_witness :
  map id (TaskList.filterAndSort "" TaskList.status_all TaskList.by_priority
            [priority_task "l" (Some low); priority_task "h" (Some high);
             priority_task "m" (Some medium)])
    = ["h"; "m"; "l"]
  /\ all_precede high medium
       (TaskList.filterAndSort "" TaskList.status_all TaskList.by_priority
          [priority_task "l" (Some low); priority_task "h" (Some high);
           priority_task "m" (Some medium)]).
Proof.
  split; [reflexivity|].
  refine (proj1 (proj2
            (priority_sort_descending_when_all_have_priority "" TaskList.status_all
               [priority_task "l" (Some low); priority_task "h" (Some high);
                priority_task "m" (Some medium)] _))).
  repeat constructor; discriminate.
Defined.


(** ** Data access layer *)

(** The row an update stores agrees with the payload applied to the row
    before in every column but [updated_at], which is the server's. *)
Lemma updated_row_fields (u : Postgrest.TaskUpdates) (server_now : Timestamp) (t : Task) :
  let row := Postgrest.updated_row u server_now t in
  let applied := Postgrest.apply_updates u t in
  id row = id t /\ created_at row = created_at t /\ updated_at row = server_now
  /\ title row = title applied /\ description row = description applied
  /\ completed row = completed applied /\ due_date row = due_date applied
  /\ reminder_date row = reminder_date applied /\ priority row = priority applied
  /\ category_id row = category_id applied /\ user_id row = user_id applied
  /\ completed_at row = completed_at applied.
Proof. repeat split. Qed.

Lemma nth_error_update_where (sel : Task -> bool) (u : Postgrest.TaskUpdates)
    (server_now : Timestamp) (rows : list Task) (i : nat) :
  nth_error (Postgrest.update_where sel u server_now rows) i
  = option_map (fun t => if sel t then Postgrest.updated_row u server_now t else t)
               (nth_error rows i).
Proof. unfold Postgrest.update_where. apply nth_error_map. Qed.

Lemma is_row_spec (id_ userId : string) (t : Task) :
  database.tasks.is_row id_ userId t = true <-> id t = id_ /\ user_id t = userId.
Proof.
  unfold database.tasks.is_row. rewrite andb_true_iff, !String.eqb_eq. reflexivity.
Qed.

Lemma filter_singleton_in {A : Type} (p : A -> bool) (l : list A) (x : A) :
  filter p l = [x] -> In x l /\ p x = true.
Proof.
  intros H. apply filter_In. rewrite H. left. reflexivity.
Qed.

(** What a singular update answers and stores, case by case. *)
Lemma update_single_cases (sel : Task -> bool) (u : Postgrest.TaskUpdates)
    (server_now : Timestamp) (db : Postgrest.Db) :
  (exists column,
      Postgrest.unknown_column u = Some column
      /\ Postgrest.update_single sel u server_now db
         = (Postgrest.mkResponse None (Some (Postgrest.PGRST204 column)), db))
  \/ (Postgrest.unknown_column u = None
      /\ exists t,
           filter sel (Postgrest.tasks_table db) = [t]
           /\ Postgrest.update_single sel u server_now db
              = (Postgrest.mkResponse (Some (Postgrest.updated_row u server_now t)) None,
                 Postgrest.mkDb
                   (Postgrest.update_where sel u server_now (Postgrest.tasks_table db))
                   (Postgrest.categories_table db)))
  \/ (Postgrest.unknown_column u = None
      /\ (forall t, filter sel (Postgrest.tasks_table db) <> [t])
      /\ exists e,
           Postgrest.code e = "PGRST116"
           /\ Postgrest.update_single sel u server_now db
              = (Postgrest.mkResponse None (Some e), db)).
Proof.
  unfold Postgrest.update_single.
  destruct (Postgrest.unknown_column u) as [column|].
  - left. exists column. split; reflexivity.
  - right. destruct (filter sel (Postgrest.tasks_table db)) as [|t [|t' rest]]; simpl.
    + right. split; [reflexivity|]. split; [discriminate|].
      eexists. split; [|reflexivity]. reflexivity.
    + left. split; [reflexivity|]. exists t. split; reflexivity.
    + right. split; [reflexivity|]. split; [discriminate|].
      eexists. split; [|reflexivity]. reflexivity.
Qed.

(** A singular update adds and removes no row, keeps the order, touches
    no category, and leaves every row its filters do not pick as it
    was; a row it does pick is as it was or is the updated row. *)
Lemma update_single_frame (sel : Task -> bool) (u : Postgrest.TaskUpdates)
    (server_now : Timestamp) (db : Postgrest.Db) :
  let db' := snd (Postgrest.update_single sel u server_now db) in
  Postgrest.categories_table db' = Postgrest.categories_table db
  /\ forall i t,
       nth_error (Postgrest.tasks_table db) i = Some t ->
       exists t',
         nth_error (Postgrest.tasks_table db') i = Some t'
         /\ (sel t = false -> t' = t)
         /\ (t' = t \/ t' = Postgrest.updated_row u server_now t).
Proof.
  cbv zeta.
  destruct (update_single_cases sel u server_now db)
    as [[c [_ E]] | [[_ [t [_ E]]] | [_ [_ [e [_ E]]]]]]; rewrite E; simpl.
  - split; [reflexivity|]. intros i t Hi. exists t. auto.
  - split; [reflexivity|]. intros i x Hi. rewrite nth_error_update_where, Hi. simpl.
    destruct (sel x).
    + eexists. split; [reflexivity|]. split; [discriminate | right; reflexivity].
    + exists x. auto.
  - split; [reflexivity|]. intros i t Hi. exists t. auto.
Qed.

Example toggle_is_refused :
  database.tasks.toggleComplete "1" true "user1" 10 11 5000 (Postgrest.mkDb [groceries] [])
  = (Postgrest.mkResponse None (Some (Postgrest.PGRST204 "completed_at")),
     Postgrest.mkDb [groceries] []).
Proof. reflexivity. Qed.

(** C1.  For every task identifier, completion flag, owner, clock and
    state of the service, toggle-completion sends one update whose payload
    sets exactly [completed], [updated_at] and [completed_at], the last to
    the clock reading when the flag is true and to null when it is false.
    The tasks table of schema.sql has no [completed_at] column: the
    service refuses the update, so the call answers with an error and
    without a row, and the table is as it was.  No toggle stamps or
    clears [completed_at], and no toggle sets [completed]; the item that
    made the call does not report to the list, whose rows stay as they
    were. *)
Theorem toggleComplete_is_refused :
  forall (id_ : string) (completed_ : bool) (userId : string)
         (now_updated now_completed server_now : Timestamp) (db : Postgrest.Db)
         (u : User) (task : Task) (st : TaskList.State),
    let payload := database.tasks.toggle_payload completed_ now_updated now_completed in
    let r := fst (database.tasks.toggleComplete id_ completed_ userId
                    now_updated now_completed server_now db) in
    let db' := snd (database.tasks.toggleComplete id_ completed_ userId
                      now_updated now_completed server_now db) in
    payload
      = Postgrest.mkUpdates None None (Some completed_) None None None None None
          (Some now_updated) (Some (if completed_ then Some now_completed else None))
    /\ Postgrest.keys payload = ["completed"; "updated_at"; "completed_at"]
    /\ ~ In "completed_at" Postgrest.tasks_columns
    /\ Postgrest.data r = None
    /\ Postgrest.error r = Some (Postgrest.PGRST204 "completed_at")
    /\ db' = db
    /\ TaskList.toggle (Some u) false task (Js.Normal r) st = st.
Proof.
  intros id_ completed_ userId now_updated now_completed server_now db u task st
         payload r db'.
  split; [reflexivity|]. split; [reflexivity|]. split.
  - simpl. intros H. repeat (destruct H as [H|H]; [discriminate H|]). exact H.
  - repeat split.
Qed.


(** In a zone whose clocks never change, [days] calendar days are [days]
    times 24 hours. *)
Lemma futureDate_fixed_zone (offset : Z) (now : Timestamp) (days : Z) :
  database.tasks.futureDate (Js.fixed_zone offset) now days = now + days * 86400000.
Proof.
  unfold database.tasks.futureDate, Js.addDays, Js.UTC, Js.LocalTime, Js.LocalTZA,
    Js.msPerDay. simpl. lia.
Qed.

(** Across a change of the clocks they are not.  In New York a week from
    30 October 2024, 12:00 UTC, ends an hour later than seven times 24
    hours; a week from 3 March 2024, 08:15 UTC, ends earlier than a week
    from 07:30 UTC of that day, which lands in the hour the clocks
    skip. *)
Example futureDate_across_a_clock_change :
  database.tasks.futureDate new_york_2024 1730289600000 7
    = 1730289600000 + 7 * 86400000 + 3600000
  /\ database.tasks.futureDate new_york_2024 1709451000000 7 = 1710055800000
  /\ database.tasks.futureDate new_york_2024 1709453700000 7 = 1710054900000.
Proof. repeat split. Qed.



Lemma getUpcoming_single (zone : Js.Zone) (userId : string) (days : option Z)
    (now : Timestamp) (t : Task) :
  user_id t = userId -> completed t = false ->
  (exists d, due_date t = Some d
             /\ d <= database.tasks.futureDate zone now
                       (match days with Some n => n | None => 7 end)) ->
  database.tasks.getUpcoming zone userId days now (Postgrest.mkDb [t] [])
  = Postgrest.mkResponse (Some [t]) None.
Proof.
  intros Hu Hc [d [Hd Hle]]. unfold database.tasks.getUpcoming. cbv zeta.
  cbn [Postgrest.tasks_table filter]. unfold database.tasks.owned_by, Postgrest.lte.
  rewrite Hu, Hc, Hd, String.eqb_refl. apply Z.leb_le in Hle. rewrite Hle. reflexivity.
Qed.

(** C7, at a task that was due long ago.  With the clock at
    1 700 000 000 000 ms, in any zone whose offset from UTC is within a
    day, an uncompleted task of the owner that was due at time 0 is not
    due within the coming 7 days; the query has no lower bound on the due
    date and returns it. *)
Theorem getUpcoming_returns_overdue_task :
  forall zone : Js.Zone,
    (forall t b, - 86400000 <= Js.LocalTZA zone t b <= 86400000) ->
    let overdue := due_task "old" (Some 0) in
    let now := 1700000000000 in
    Postgrest.data (database.tasks.getUpcoming zone "user1" None now
                      (Postgrest.mkDb [overdue] []))
      = Some [overdue]
    /\ due_date overdue = Some 0
    /\ 0 < now.
Proof.
  intros zone B. cbv zeta. split; [|split; [reflexivity | lia]].
  rewrite getUpcoming_single; [reflexivity | reflexivity | reflexivity |].
  exists 0. split; [reflexivity|].
  unfold database.tasks.futureDate, Js.addDays, Js.UTC, Js.LocalTime, Js.msPerDay.
  pose proof (B 1700000000000 true) as B1.
  pose proof (B (1700000000000 + Js.LocalTZA zone 1700000000000 true + 7 * 86400000) false)
    as B2.
  lia.
Qed.

Lemma getUpcoming_overdue_witness :
  (forall t b, - 86400000 <= Js.LocalTZA new_york_2024 t b <= 86400000)
  /\ Postgrest.data (database.tasks.getUpcoming new_york_2024 "user1" None 1700000000000
                       (Postgrest.mkDb [due_task "old" (Some 0)] []))
     = Some [due_task "old" (Some 0)].
Proof.
  assert (B : forall t b, - 86400000 <= Js.LocalTZA new_york_2024 t b <= 86400000).
  { intros t b. unfold Js.LocalTZA, new_york_2024. simpl.
    destruct b;
      repeat match goal with
             | |- context [if ?c then _ else _] => destruct c
             end; lia. }
  split; [exact B|].
  exact (proj1 (getUpcoming_returns_overdue_task new_york_2024 B)).
Defined.

(** ** Task form *)

(** The one-argument call in [validateForm] raises before any rule is
    looked at. *)
Lemma validateForm_throws (formData : TaskForm.FormData) :
  TaskForm.validateForm formData
  = ([], Js.Throw (Js.TypeError "Cannot read properties of undefined (reading 'filter')")).
Proof. reflexivity. Qed.

(** For a signed-in user and a form that is not already saving, every
    submission ends in that exception: no call to the data access layer
    and no error notification. *)
Lemma handleSubmit_always_throws (u : User) (task : option Task)
    (formData : TaskForm.FormData) (result : Js.Completion (Postgrest.Response Task)) :
  TaskForm.handleSubmit (Some u) false task formData result
  = ([SetValidationErrors []],
     Js.Throw (Js.TypeError "Cannot read properties of undefined (reading 'filter')")).
Proof. reflexivity. Qed.

(** C8, at a form whose reminder is after its due date and at a form whose
    title is blank.  No create or update call is issued, as the claim
    says; but the submission ends in a TypeError raised inside
    [validateForm], the validation errors stay empty and no error is
    shown. *)
Theorem handleSubmit_reports_no_validation_error :
  let run form := TaskForm.handleSubmit (Some (mkUser "user1")) false None form
                    (Js.Normal (Postgrest.mkResponse None None)) in
  snd (run late_reminder_form)
    = Js.Throw (Js.TypeError "Cannot read properties of undefined (reading 'filter')")
  /\ fst (run late_reminder_form) = [SetValidationErrors []]
  /\ existsb is_showError (fst (run late_reminder_form)) = false
  /\ existsb is_call (fst (run late_reminder_form)) = false
  /\ run blank_title_form = run late_reminder_form.
Proof. cbv beta zeta. rewrite !handleSubmit_always_throws. repeat split. Qed.

(** ** Category sidebar *)

(** What the sidebar loads and shows does not depend on the tasks. *)
Lemma mount_ignores_tasks (user : option User) (ts ts' : list Task) (cs : list Category) :
  CategorySidebar.mount user (Postgrest.mkDb ts cs)
  = CategorySidebar.mount user (Postgrest.mkDb ts' cs).
Proof. destruct user; reflexivity. Qed.

(** C9, at the categories and tasks of the component's own test.  The
    sidebar issues one call, for the categories, and none for the tasks;
    the text it renders is the heading, the "All Tasks" entry and the
    category names, the same with or without tasks, so neither the
    per-category counts 2, 1 and 0 nor the total 3 are displayed. *)
Theorem sidebar_shows_no_task_counts :
  let user := Some (mkUser "user1") in
  let loaded := CategorySidebar.mount user (Postgrest.mkDb test_tasks test_categories) in
  snd loaded = [Call (categories_getAll "user1")]
  /\ CategorySidebar.texts (fst loaded)
     = ["Categories"; "All Tasks"; "Personal"; "Shopping"; "Work"]
  /\ CategorySidebar.texts (fst loaded)
     = CategorySidebar.texts
         (fst (CategorySidebar.mount user (Postgrest.mkDb [] test_categories)))
  /\ List.length (filter (fun t => match category_id t with
                                   | Some c => (c =? "cat1")%string
                                   | None => false
                                   end) test_tasks) = 2%nat
  /\ ~ In "2" (CategorySidebar.texts (fst loaded))
  /\ ~ In "3" (CategorySidebar.texts (fst loaded)).
Proof.
  cbv zeta. repeat split; try reflexivity.
  - simpl. intros H. repeat (destruct H as [H|H]; [discriminate|]). exact H.
  - simpl. intros H. repeat (destruct H as [H|H]; [discriminate|]). exact H.
Qed.

(** C10.  For every state of the sidebar and every selection, a
    successful delete removes from the in-memory list exactly the
    categories with the given identifier and keeps the others in order;
    it calls [onCategorySelect(undefined)] if and only if the deleted
    category was the selected one, so the selection becomes "all tasks" in
    that case and is unchanged when another category, or none, was
    selected. *)
Theorem handleDelete_removes_and_resets :
  forall (u : User) (selected : option string) (categoryId : string)
         (d : option unit) (st : CategorySidebar.State),
    let r := CategorySidebar.handleDelete (Some u) selected categoryId
               (Js.Normal (Postgrest.mkResponse d None)) st in
    CategorySidebar.categories (fst r)
      = filter (fun c => negb (cat_id c =? categoryId)%string) (CategorySidebar.categories st)
    /\ (forall c, In c (CategorySidebar.categories (fst r))
                  <-> In c (CategorySidebar.categories st) /\ cat_id c <> categoryId)
    /\ (In (OnCategorySelect None) (snd r) <-> selected = Some categoryId)
    /\ (forall c, In (OnCategorySelect (Some c)) (snd r) <-> False)
    /\ CategorySidebar.select_after (snd r) selected
       = match selected with
         | Some s => if (s =? categoryId)%string then None else Some s
         | None => None
         end.
Proof.
  intros u selected categoryId d st r. unfold r. simpl.
  split; [reflexivity|].
  split.
  { intros c. rewrite filter_In, negb_true_iff, String.eqb_neq. reflexivity. }
  destruct selected as [s|]; simpl.
  - destruct (String.eqb_spec s categoryId) as [->|Hne]; simpl.
    + split; [split; [reflexivity | intros _; right; left; reflexivity]|].
      split; [|reflexivity].
      intros c. split; [|tauto]. intros [H|[H|[]]]; discriminate.
    + split; [split; [intros [H|[]]; discriminate | intros H; congruence]|].
      split; [|reflexivity].
      intros c. split; [|tauto]. intros [H|[]]; discriminate.
  - split; [split; [intros [H|[]]; discriminate | discriminate]|].
    split; [|reflexivity].
    intros c. split; [|tauto]. intros [H|[]]; discriminate.
Qed.

(** ** Reconciling the in-memory list *)

Example create_then_list :
  TaskList.tasks (fst (TaskList.handleTaskSave walk_dog (list_state [groceries] None)))
  = [walk_dog; groceries].
Proof. reflexivity. Qed.

Example delete_keeps_order :
  map id (TaskList.tasks
            (fst (TaskList.handleTaskDelete (Some (mkUser "user1")) "b"
                    (Js.Normal (Postgrest.mkResponse None None))
                    (list_state [due_task "a" None; due_task "b" None; due_task "c" None]
                                None))))
  = ["a"; "c"].
Proof. reflexivity. Qed.




(** ** Required fields *)

Lemma trimStart_empty (s : string) : Js.trimStart s = "" <-> all_white_space s = true.
Proof.
  induction s as [|c s IH]; simpl; [tauto|].
  destruct (Js.isWhiteSpace c); simpl; [exact IH|]. split; discriminate.
Qed.

Lemma trimStart_head (s : string) :
  Js.trimStart s = "" \/ exists c r, Js.trimStart s = String c r /\ Js.isWhiteSpace c = false.
Proof.
  induction s as [|c s IH]; simpl; [left; reflexivity|].
  destruct (Js.isWhiteSpace c) eqn:E; [exact IH|].
  right. exists c, s. split; [reflexivity | exact E].
Qed.

Lemma trimEnd_empty (s : string) : Js.trimEnd s = "" <-> all_white_space s = true.
Proof.
  induction s as [|c s IH]; simpl; [tauto|].
  destruct (Js.trimEnd s) eqn:E.
  - destruct (Js.isWhiteSpace c); simpl.
    + split; [intros _; apply IH; reflexivity | reflexivity].
    + split; discriminate.
  - split; [discriminate|]. intros H. apply andb_true_iff in H.
    destruct H as [_ H]. apply IH in H. discriminate.
Qed.

Lemma trim_empty (s : string) : Js.trim s = "" <-> all_white_space s = true.
Proof.
  unfold Js.trim. rewrite trimEnd_empty. split.
  - intros H. apply trimStart_empty.
    destruct (trimStart_head s) as [E | [c [r [E Hc]]]]; [exact E|].
    rewrite E in H. simpl in H. rewrite Hc in H. discriminate.
  - intros H. apply trimStart_empty in H. rewrite H. reflexivity.
Qed.

Lemma own_absent (data : list (string * error_handler.Value)) (field : string) :
  absent data field -> error_handler.own data field = None.
Proof.
  unfold absent. induction data as [|[k v] data IH]; simpl; intros H; [reflexivity|].
  destruct (String.eqb_spec k field) as [->|Hne].
  - exfalso. apply (H field v); [left; reflexivity | reflexivity].
  - apply IH. intros k' v' Hin. apply (H k' v'). right. exact Hin.
Qed.

(** A key that is absent is missing unless it names a member every
    object inherits. *)
Lemma is_missing_absent (data : list (string * error_handler.Value)) (field : string) :
  absent data field ->
  (error_handler.is_missing data field = true
   <-> ~ In field error_handler.Object_prototype).
Proof.
  intros A. unfold error_handler.is_missing, error_handler.get.
  rewrite (own_absent data field A).
  destruct (existsb (String.eqb field) error_handler.Object_prototype) eqn:E; simpl.
  - apply existsb_exists in E. destruct E as [k [Hin Hk]]. apply String.eqb_eq in Hk.
    subst k. split; [discriminate | intros N; contradiction].
  - split; [intros _ Hin | reflexivity].
    assert (X : existsb (String.eqb field) error_handler.Object_prototype = true).
    { apply existsb_exists. exists field. split; [exact Hin | apply String.eqb_refl]. }
    congruence.
Qed.

(** White space, spelled out by code unit. *)
Lemma all_white_space_spec (s : string) :
  all_white_space s = true
  <-> forall c, In c (list_ascii_of_string s) ->
                In (nat_of_ascii c) [9; 10; 11; 12; 13; 32; 160]%nat.
Proof.
  induction s as [|a s IH]; simpl.
  - split; [intros _ c [] | reflexivity].
  - rewrite andb_true_iff, IH. unfold Js.isWhiteSpace. cbv zeta.
    rewrite !orb_true_iff, andb_true_iff, !Nat.leb_le, !Nat.eqb_eq. split.
    + intros [Ha Hs] c [<-|Hc]; [simpl; lia | apply Hs, Hc].
    + intros H. split.
      * specialize (H a (or_introl eq_refl)). simpl in H. lia.
      * intros c Hc. apply H. right. exact Hc.
Qed.

Lemma is_missing_string (data : list (string * error_handler.Value)) (field s : string) :
  error_handler.get data field = error_handler.VString s ->
  (error_handler.is_missing data field = true <-> all_white_space s = true).
Proof.
  intros G. unfold error_handler.is_missing. rewrite G. simpl.
  rewrite orb_true_iff, String.eqb_eq, trim_empty. split.
  - intros [H|H]; [|exact H]. destruct s; [reflexivity | discriminate].
  - intros H. right. exact H.
Qed.

Example validateRequiredFields_run :
  error_handler.validateRequiredFields
    [("title", error_handler.VString "  "); ("name", error_handler.VString "Work");
     ("done", error_handler.VBoolean false)]
    (Some ["title"; "name"; "color"; "done"])
  = Js.Normal
      (Some (error_handler.mkAppError error_handler.VALIDATION
               "Please fill in all required fields: title, color, done" None None
               (Some ("missingFields", Some "title, color, done")))).
Proof. reflexivity. Qed.

(** A required field named like an inherited member is never reported:
    the lookup finds the member on the prototype.  A title made of
    no-break spaces is reported. *)
Example validateRequiredFields_inherited :
  error_handler.validateRequiredFields
    [("title", error_handler.VString "Buy milk")] (Some ["constructor"; "toString"])
  = Js.Normal None
  /\ error_handler.is_missing
       [("title", error_handler.VString (String (ascii_of_nat 160) " "))] "title" = true.
Proof. split; reflexivity. Qed.

(** Called with both arguments, [validateRequiredFields] never raises.
    It answers null exactly when no required field is missing; otherwise
    its error is of type VALIDATION and its message lists the missing
    fields, in the order required, and only those.  A field whose key is
    absent is missing, unless it has the name of a member every object
    inherits ([constructor], [toString], ...): such a field is never
    missing.  A string field is missing exactly when it is empty or
    white space only, the no-break space counting as white space. *)
Theorem validateRequiredFields_reports_missing_fields :
  forall (data : list (string * error_handler.Value)) (fields : list string),
    let missing := filter (error_handler.is_missing data) fields in
    (exists r, error_handler.validateRequiredFields data (Some fields) = Js.Normal r
               /\ (r = None <-> missing = [])
               /\ (forall e, r = Some e ->
                      error_handler.type e = error_handler.VALIDATION
                      /\ error_handler.message e
                         = "Please fill in all required fields: "
                             ++ error_handler.join ", " missing))
    /\ (missing = [] <-> forall f, In f fields -> error_handler.is_missing data f = false)
    /\ (forall f, absent data f ->
                  (error_handler.is_missing data f = true
                   <-> ~ In f ["constructor"; "hasOwnProperty"; "isPrototypeOf";
                               "propertyIsEnumerable"; "toLocaleString"; "toString";
                               "valueOf"; "__proto__"; "__defineGetter__";
                               "__defineSetter__"; "__lookupGetter__"; "__lookupSetter__"]))
    /\ (forall f s, error_handler.get data f = error_handler.VString s ->
                    (error_handler.is_missing data f = true
                     <-> forall c, In c (list_ascii_of_string s) ->
                                   In (nat_of_ascii c) [9; 10; 11; 12; 13; 32; 160]%nat)).
Proof.
  intros data fields missing. split; [|split; [|split]].
  - unfold error_handler.validateRequiredFields. fold missing.
    destruct missing as [|m rest] eqn:E; simpl.
    + exists None. repeat split; try reflexivity; discriminate.
    + eexists. split; [reflexivity|]. split; [split; discriminate|].
      intros e He. injection He as <-. split; reflexivity.
  - unfold missing. split.
    + intros H f Hf. destruct (error_handler.is_missing data f) eqn:M; [|reflexivity].
      assert (Hin : In f (filter (error_handler.is_missing data) fields))
        by (apply filter_In; split; assumption).
      rewrite H in Hin. destruct Hin.
    + intros H. induction fields as [|f fields IH]; [reflexivity|]. simpl.
      rewrite (H f (or_introl eq_refl)). apply IH. intros g Hg. apply H. right. exact Hg.
  - intros f Hf. apply is_missing_absent, Hf.
  - intros f s0 G. rewrite (is_missing_string data f s0 G). apply all_white_space_spec.
Qed.

Lemma validateRequiredFields_witness :
  absent [("title", error_handler.VString "Buy milk")] "name"
  /\ error_handler.is_missing [("title", error_handler.VString "Buy milk")] "name" = true.
Proof.
  assert (A : absent [("title", error_handler.VString "Buy milk")] "name").
  { intros k v [H|[]]. injection H as <- _. discriminate. }
  split; [exact A|].
  apply (proj1 (proj2 (proj2
           (validateRequiredFields_reports_missing_fields
              [("title", error_handler.VString "Buy milk")] ["title"; "name"])))
           "name" A).
  simpl. intros H. repeat (destruct H as [H|H]; [discriminate H|]). exact H.
Defined.

(** ** Error classification *)

Example handleSupabaseError_run :
  error_handler.type
    (error_handler.handleSupabaseError
       (Some (error_handler.OfResponse
                (Postgrest.mkPgError "23505" "duplicate key value violates unique constraint")))
       (Some "Creating category")) = error_handler.VALIDATION
  /\ error_handler.type
       (error_handler.handleSupabaseError
          (Some (error_handler.Caught (Js.TypeError "Failed to fetch"))) None)
     = error_handler.NETWORK
  /\ error_handler.type
       (error_handler.handleSupabaseError
          (Some (error_handler.Caught (Js.OtherError "Network request failed"))) None)
     = error_handler.UNKNOWN.
Proof. repeat split. Qed.

(** An exception that carries a code is classified as the error of a
    response is: an aborted request, whose exception has the code 20, is
    reported as a database error. *)
Example handleSupabaseError_coded_exception :
  error_handler.type
    (error_handler.handleSupabaseError
       (Some (error_handler.Caught (Js.CodedError "20" "The user aborted a request.")))
       None) = error_handler.DATABASE
  /\ error_handler.type
       (error_handler.handleSupabaseError
          (Some (error_handler.Caught (Js.CodedError "PGRST116" "network down"))) None)
     = error_handler.NOT_FOUND.
Proof. split; reflexivity. Qed.

(** An error that carries a code, the error of a response or an
    exception, is classified by its code alone: the type, the message,
    the code and the details of the result are the same whatever text
    came with the code, so that text is never what the user is shown.
    The type is NOT_FOUND, VALIDATION, AUTHORIZATION or DATABASE, and the
    code is kept.  An exception without a code is NETWORK, AUTHENTICATION
    or UNKNOWN, and NETWORK wins when its message mentions fetch or
    network, whatever else it mentions.  In every case the result carries
    the incoming error itself, text included, as its original error. *)
Theorem handleSupabaseError_classification :
  forall (c m m' : string) (e : error_handler.Failure) (x : Js.Error)
         (context : option string),
    let of_response t :=
      error_handler.handleSupabaseError
        (Some (error_handler.OfResponse (Postgrest.mkPgError c t))) context in
    let coded :=
      error_handler.handleSupabaseError
        (Some (error_handler.Caught (Js.CodedError c m'))) context in
    let caught := error_handler.handleSupabaseError (Some (error_handler.Caught x)) context in
    error_handler.type (of_response m) = error_handler.type (of_response m')
    /\ error_handler.message (of_response m) = error_handler.message (of_response m')
    /\ error_handler.details (of_response m) = error_handler.details (of_response m')
    /\ error_handler.code (of_response m) = Some c
    /\ In (error_handler.type (of_response m))
          [error_handler.NOT_FOUND; error_handler.VALIDATION;
           error_handler.AUTHORIZATION; error_handler.DATABASE]
    /\ (error_handler.type coded = error_handler.type (of_response m)
        /\ error_handler.message coded = error_handler.message (of_response m)
        /\ error_handler.details coded = error_handler.details (of_response m)
        /\ error_handler.code coded = Some c)
    /\ error_handler.originalError (error_handler.handleSupabaseError (Some e) context)
       = Some e
    /\ (Js.error_code x = None ->
        In (error_handler.type caught)
           [error_handler.NETWORK; error_handler.AUTHENTICATION; error_handler.UNKNOWN]
        /\ error_handler.code caught = None
        /\ ((Js.includes (Js.error_message x) "fetch"
             || Js.includes (Js.error_message x) "network")%bool = true
            <-> error_handler.type caught = error_handler.NETWORK)).
Proof.
  intros c m m' e x context of_response coded caught.
  unfold of_response, coded, caught, error_handler.handleSupabaseError. simpl.
  split; [|split; [|split; [|split; [|split; [|split; [|split]]]]]].
  - repeat match goal with |- context [if ?b then _ else _] => destruct b end; reflexivity.
  - repeat match goal with |- context [if ?b then _ else _] => destruct b end; reflexivity.
  - repeat match goal with |- context [if ?b then _ else _] => destruct b end; reflexivity.
  - repeat match goal with |- context [if ?b then _ else _] => destruct b end; reflexivity.
  - repeat match goal with |- context [if ?b then _ else _] => destruct b end;
      simpl; auto 6.
  - repeat match goal with |- context [if ?b then _ else _] => destruct b end;
      repeat split.
  - destruct (error_handler.code_of e);
      repeat match goal with |- context [if ?b then _ else _] => destruct b end;
      reflexivity.
  - intros N. rewrite N.
    destruct (Js.includes (Js.error_message x) "fetch"
              || Js.includes (Js.error_message x) "network")%bool.
    + simpl. split; [auto | split; [reflexivity | tauto]].
    + destruct (Js.includes (Js.error_message x) "auth"
                || Js.includes (Js.error_message x) "token")%bool; simpl.
      * split; [auto | split; [reflexivity | split; discriminate]].
      * split; [auto | split; [reflexivity | split; discriminate]].
Qed.

Lemma handleSupabaseError_classification_witness :
  Js.error_code (Js.TypeError "Failed to fetch: bad auth token") = None
  /\ error_handler.type
       (error_handler.handleSupabaseError
          (Some (error_handler.Caught (Js.TypeError "Failed to fetch: bad auth token")))
          None) = error_handler.NETWORK.
Proof.
  split; [reflexivity|].
  exact (proj1 (proj2 (proj2
           (proj2 (proj2 (proj2 (proj2 (proj2 (proj2 (proj2
              (handleSupabaseError_classification "" "" ""
                 (error_handler.Caught (Js.TypeError "")) 
                 (Js.TypeError "Failed to fetch: bad auth token") None)))))))
              eq_refl))) eq_refl).
Defined.

Lemma ERROR_MESSAGES_truthy (t : error_handler.ErrorType) :
  Js.truthy (error_handler.ERROR_MESSAGES t) = true.
Proof. destruct t; reflexivity. Qed.

(** The user never gets an empty message.  Whatever error or exception
    is classified, the message of the result is not empty and
    [formatErrorMessage] returns it unchanged; for any error value at all,
    [formatErrorMessage] returns its message, or the standard message of
    its type when the message is empty, and that is never empty: the
    last fallback, the UNKNOWN message, is never reached for its own
    sake. *)
Theorem error_message_never_empty :
  forall (err : option error_handler.Failure) (context : option string)
         (a : error_handler.AppError),
    error_handler.message (error_handler.handleSupabaseError err context) <> ""
    /\ error_handler.formatErrorMessage (error_handler.handleSupabaseError err context)
       = error_handler.message (error_handler.handleSupabaseError err context)
    /\ error_handler.formatErrorMessage a
       = (if Js.truthy (error_handler.message a) then error_handler.message a
          else error_handler.ERROR_MESSAGES (error_handler.type a))
    /\ error_handler.formatErrorMessage a <> "".
Proof.
  intros err context a.
  assert (M : Js.truthy (error_handler.message
                           (error_handler.handleSupabaseError err context)) = true).
  { unfold error_handler.handleSupabaseError.
    destruct err as [e|]; [destruct (error_handler.code_of e)|]; simpl;
      repeat match goal with
             | |- context [if ?b then _ else _] => destruct b
             end; reflexivity. }
  split.
  { intros E. rewrite E in M. discriminate. }
  split.
  { unfold error_handler.formatErrorMessage. rewrite M. reflexivity. }
  assert (F : error_handler.formatErrorMessage a
              = (if Js.truthy (error_handler.message a) then error_handler.message a
                 else error_handler.ERROR_MESSAGES (error_handler.type a))).
  { unfold error_handler.formatErrorMessage. rewrite ERROR_MESSAGES_truthy. reflexivity. }
  split; [exact F|].
  rewrite F. intros E.
  destruct (Js.truthy (error_handler.message a)) eqn:T.
  - rewrite E in T. discriminate.
  - pose proof (ERROR_MESSAGES_truthy (error_handler.type a)) as H.
    rewrite E in H. discriminate.
Qed.

(** ** The default order and re-deriving the view *)

Lemma stable_sort_ext {A : Type} (f g : A -> A -> bool) (l : list A) :
  (forall x y, f x y = g x y) -> stable_sort f l = stable_sort g l.
Proof.
  intros E. induction l as [|x l IH]; [reflexivity|]. simpl. rewrite IH.
  generalize (stable_sort g l). intros s. induction s as [|y s IHs]; [reflexivity|].
  simpl. rewrite E, IHs. reflexivity.
Qed.

(** Sorting a list that is in order already returns it as it is. *)
Lemma stable_sort_fixed {A : Type} (before : A -> A -> bool) (l : list A) :
  StronglySorted (fun x y => before x y = true) l -> stable_sort before l = l.
Proof.
  induction 1 as [|x l Hs IH Hall]; [reflexivity|]. simpl. rewrite IH.
  destruct l as [|y l']; [reflexivity|]. simpl.
  inversion Hall as [|? ? Hxy _]; subst. rewrite Hxy. reflexivity.
Qed.

Lemma filter_all {A : Type} (p : A -> bool) (l : list A) :
  Forall (fun x => p x = true) l -> filter p l = l.
Proof.
  induction 1 as [|x l Hx _ IH]; [reflexivity|]. simpl. rewrite Hx, IH. reflexivity.
Qed.

Lemma created_before_spec (a b : Task) : created_before a b = true <-> newest_first a b.
Proof.
  unfold created_before, newest_first, Js.SortCompare, TaskList.comparefn.
  rewrite Z.leb_le. lia.
Qed.

Lemma sorted_by_created_at (before : Task -> Task -> bool) (l : list Task) :
  (forall a b, before a b = true <-> newest_first a b) ->
  StronglySorted (fun a b => before a b = true) (stable_sort before l).
Proof.
  intros B. apply (stable_sort_sorted before (fun _ => True)).
  - intros x y _ _ H. apply B.
    assert (N : ~ newest_first x y) by (rewrite <- B; congruence).
    unfold newest_first in *. lia.
  - intros x y z _ _ _. rewrite !B. unfold newest_first. lia.
  - apply Forall_forall; trivial.
Qed.

Example created_at_sort_run :
  map id (Js.sort (TaskList.comparefn TaskList.by_created_at)
            [mkTask "a" "a" None false None None None None "user1" 10 10 None;
             mkTask "b" "b" None false None None None None "user1" 30 30 None;
             mkTask "c" "c" None false None None None None "user1" 10 10 None;
             mkTask "d" "d" None false None None None None "user1" 20 20 None])
  = ["b"; "d"; "a"; "c"].
Proof. reflexivity. Qed.

(** The default order: sorting by creation time returns the filtered
    tasks, rearranged, newest first, and tasks created at the same
    instant keep the order they had. *)
Theorem created_at_sort_is_newest_first :
  forall (term : string) (f : TaskList.FilterStatus) (l : list Task),
    let out := TaskList.filterAndSort term f TaskList.by_created_at l in
    Permutation out (filter (TaskList.keep term f) l)
    /\ StronglySorted newest_first out
    /\ forall ts : Timestamp,
         filter (fun t => created_at t =? ts) out
         = filter (fun t => created_at t =? ts) (filter (TaskList.keep term f) l).
Proof.
  intros term f l out. split; [apply filterAndSort_perm|]. split.
  - eapply StronglySorted_weaken; [intros a b H; apply created_before_spec, H|].
    apply (sorted_by_created_at created_before), created_before_spec.
  - intros ts. unfold out, TaskList.filterAndSort, Js.sort. apply stable_sort_stable.
    intros x y Hx Hy. apply Z.eqb_eq in Hx, Hy.
    unfold Js.SortCompare, TaskList.comparefn. apply Z.leb_le. lia.
Qed.

Lemma filterAndSort_kept (term : string) (f : TaskList.FilterStatus) (o : TaskList.SortBy)
    (l : list Task) :
  Forall (fun t => TaskList.keep term f t = true) (TaskList.filterAndSort term f o l).
Proof.
  apply Forall_forall. intros t Ht. apply filterAndSort_in in Ht. apply Ht.
Qed.

(** Deriving the view again from the view changes nothing, under the
    creation-time order and under the due-date order: the filters keep
    every task of a view they produced, and the sort leaves a sorted list
    as it is. *)
Theorem view_derivation_is_idempotent :
  forall (term : string) (f : TaskList.FilterStatus) (l : list Task),
    TaskList.filterAndSort term f TaskList.by_created_at
      (TaskList.filterAndSort term f TaskList.by_created_at l)
    = TaskList.filterAndSort term f TaskList.by_created_at l
    /\ TaskList.filterAndSort term f TaskList.by_due_date
         (TaskList.filterAndSort term f TaskList.by_due_date l)
       = TaskList.filterAndSort term f TaskList.by_due_date l.
Proof.
  intros term f l. split.
  - unfold TaskList.filterAndSort at 1.
    rewrite (filter_all _ _ (filterAndSort_kept term f TaskList.by_created_at l)).
    apply stable_sort_fixed.
    apply (sorted_by_created_at created_before), created_before_spec.
  - unfold TaskList.filterAndSort at 1.
    rewrite (filter_all _ _ (filterAndSort_kept term f TaskList.by_due_date l)).
    apply stable_sort_fixed.
    apply (stable_sort_sorted due_before (fun _ => True)
             (fun a b _ _ => due_before_total a b)
             (fun a b c _ _ _ => due_before_trans a b c)).
    apply Forall_forall; trivial.
Qed.

(** ** Loading the task list *)

Lemma run_query_rows (q : TaskList.TaskQuery) (db : Postgrest.Db) :
  exists sel,
    run_query_result q db sel
    /\ forall t, sel t = true ->
         match q with
         | TaskList.getAll u => user_id t = u
         | TaskList.getByCategory c u => user_id t = u /\ category_id t = Some c
         end.
Proof.
  destruct q as [c u | u].
  - exists (fun t => (match category_id t with
                      | Some k => (k =? c)%string
                      | None => false
                      end && database.tasks.owned_by u t)%bool).
    split; [eexists; split; reflexivity|]. intros t H. apply andb_true_iff in H. destruct H as [Hc Hu].
    apply String.eqb_eq in Hu. split; [exact Hu|].
    destruct (category_id t) as [k|]; [|discriminate]. apply String.eqb_eq in Hc. congruence.
  - exists (database.tasks.owned_by u). split; [eexists; split; reflexivity|].
    intros t H. apply String.eqb_eq in H. exact H.
Qed.

(** With no search term, no status filter and the default order, the
    view after a successful load is the list of rows the service
    returned, in the order it returned them: the query already orders
    newest first, and the client-side sort leaves that order alone.  The
    rows shown are rows of the table that belong to the user, and to the
    selected category when one is selected; the loading flag is down and
    no error is recorded. *)
Theorem loaded_view_is_the_query_result :
  forall (u : User) (selectedCategoryId : option string) (db : Postgrest.Db)
         (ts : list Task) (cs : list Category) (loading : bool) (err : option string)
         (open : bool) (editing : option Task),
    let st := TaskList.mkState ts cs loading err "" TaskList.status_all
                TaskList.by_created_at open editing in
    let q := TaskList.loadTasks_query u selectedCategoryId in
    let loaded := fst (TaskList.loadTasks (Some u) (Js.Normal (TaskList.run_query q db)) st) in
    Postgrest.data (TaskList.run_query q db) = Some (TaskList.filteredAndSortedTasks loaded)
    /\ TaskList.isLoading loaded = false
    /\ TaskList.loadingError loaded = None
    /\ snd (TaskList.loadTasks (Some u) (Js.Normal (TaskList.run_query q db)) st) = []
    /\ forall t, In t (TaskList.filteredAndSortedTasks loaded) ->
         In t (Postgrest.tasks_table db) /\ user_id t = uid u
         /\ match selectedCategoryId with
            | Some c => if Js.truthy c then category_id t = Some c else True
            | None => True
            end.
Proof.
  intros u sel db ts cs loading err open editing st q loaded.
  destruct (run_query_rows q db) as [p [[rows [Hr Hrows]] Hp]].
  assert (L : TaskList.filteredAndSortedTasks loaded = rows).
  { unfold loaded, TaskList.loadTasks. rewrite Hr. simpl.
    unfold TaskList.filteredAndSortedTasks, TaskList.filterAndSort. simpl.
    rewrite keep_no_filter. rewrite Hrows. unfold Js.sort.
    apply stable_sort_fixed.
    eapply StronglySorted_weaken;
      [| apply (sorted_by_created_at (fun a b => created_at b <=? created_at a));
         intros a b; unfold newest_first; apply Z.leb_le].
    intros a b H. apply (created_before_spec a b). apply Z.leb_le in H. exact H. }
  split; [rewrite L, Hr; reflexivity|].
  split; [unfold loaded, TaskList.loadTasks; rewrite Hr; reflexivity|].
  split; [unfold loaded, TaskList.loadTasks; rewrite Hr; reflexivity|].
  split; [unfold TaskList.loadTasks; rewrite Hr; reflexivity|].
  intros t Ht. rewrite L, Hrows in Ht.
  assert (Hin : In t (filter p (Postgrest.tasks_table db))).
  { eapply Permutation_in; [apply stable_sort_perm | exact Ht]. }
  apply filter_In in Hin. destruct Hin as [Hin Hsel]. split; [exact Hin|].
  specialize (Hp t Hsel). unfold q, TaskList.loadTasks_query in Hp.
  destruct sel as [c|]; [destruct (Js.truthy c)|]; simpl in Hp; tauto.
Qed.

Lemma handleSupabaseError_message (err : option error_handler.Failure)
    (context : option string) :
  error_handler.message (error_handler.handleSupabaseError err context) <> "".
Proof.
  unfold error_handler.handleSupabaseError.
  destruct err as [e|]; [destruct (error_handler.code_of e)|]; simpl;
    repeat match goal with
           | |- context [if ?b then _ else _] => destruct b
           end; discriminate.
Qed.

Example failed_load_run :
  TaskList.loadTasks (Some (mkUser "user1"))
    (Js.Normal (Postgrest.mkResponse None
                  (Some (Postgrest.mkPgError "42501" "permission denied for table tasks"))))
    (list_state [groceries] None)
  = (TaskList.mkState [groceries] [] false
       (Some "An unexpected error occurred. Please try again") "" TaskList.status_all
       TaskList.by_created_at false None,
     [Raise (Js.TypeError "showError is not a function")]).
Proof. reflexivity. Qed.

(** A load that fails, by an error in the response or by an exception,
    leaves the tasks that were on display where they are (they are not
    cleared) and so leaves the view unchanged, and it lowers the loading
    flag.  No notification is shown: the list's [showError] is not a
    function, the toast hook having no member of that name, and the
    handler ends with the TypeError of calling it.  After an error in the
    response the message left on record is the standard message for an
    unknown error, whatever the error was: the message the error was
    classified to is replaced when the failed toast call is caught.
    After an exception the message on record is the one the exception is
    classified to.  Rows that come with an error are ignored.  Without a
    user nothing happens at all. *)
Theorem failed_load_keeps_the_previous_tasks :
  forall (st : TaskList.State) (u : User) (d : option (list Task))
         (err : Postgrest.PostgrestError) (e : Js.Error)
         (result : Js.Completion (Postgrest.Response (list Task))),
    let failed := TaskList.loadTasks (Some u) (Js.Normal (Postgrest.mkResponse d (Some err))) st in
    let thrown := TaskList.loadTasks (Some u) (Js.Throw e) st in
    TaskList.tasks (fst failed) = TaskList.tasks st
    /\ TaskList.tasks (fst thrown) = TaskList.tasks st
    /\ TaskList.filteredAndSortedTasks (fst failed) = TaskList.filteredAndSortedTasks st
    /\ TaskList.filteredAndSortedTasks (fst thrown) = TaskList.filteredAndSortedTasks st
    /\ TaskList.isLoading (fst failed) = false
    /\ TaskList.isLoading (fst thrown) = false
    /\ TaskList.loadingError (fst failed)
       = Some "An unexpected error occurred. Please try again"
    /\ TaskList.loadingError (fst thrown)
       = Some (error_handler.message
                 (error_handler.handleSupabaseError (Some (error_handler.Caught e))
                    (Some "Loading tasks")))
    /\ snd failed = [Raise (Js.TypeError "showError is not a function")]
    /\ snd thrown = [Raise (Js.TypeError "showError is not a function")]
    /\ existsb is_showError (snd failed ++ snd thrown) = false
    /\ TaskList.loadTasks None result st = (st, []).
Proof.
  intros st u d err e result failed thrown.
  repeat (split; [reflexivity|]). reflexivity.
Qed.

(** ** Attaching categories *)

Lemma category_of_some (cats : list Category) (task : Task) (c : Category) :
  TaskList.category_of cats task = Some c ->
  In c cats /\ category_id task = Some (cat_id c).
Proof.
  unfold TaskList.category_of. destruct (category_id task) as [k|]; [|discriminate].
  destruct (Js.truthy k); [|discriminate]. intros H. apply find_some in H.
  destruct H as [Hin Heq]. apply String.eqb_eq in Heq. split; congruence.
Qed.

Lemma category_of_none (cats : list Category) (task : Task) (c : Category) :
  TaskList.category_of cats task = None ->
  In c cats -> category_id task = Some (cat_id c) -> cat_id c = "".
Proof.
  unfold TaskList.category_of. intros H Hin Hk. rewrite Hk in H.
  destruct (cat_id c) as [|a k] eqn:E; [reflexivity|]. simpl in H.
  pose proof (find_none _ _ H c Hin) as N. simpl in N. rewrite E in N.
  rewrite String.eqb_refl in N. discriminate.
Qed.

(** Attaching category metadata keeps the view as it is, task for task
    and in order.  A category attached to a task is one of the loaded
    categories and has the identifier the task refers to; a task gets no
    category only when it refers to none, or to the empty identifier, or
    to an identifier no loaded category has. *)
Theorem tasksWithCategories_joins_by_identifier :
  forall (st : TaskList.State),
    map fst (TaskList.tasksWithCategories st) = TaskList.filteredAndSortedTasks st
    /\ (forall task c,
          In (task, Some c) (TaskList.tasksWithCategories st) ->
          In c (TaskList.categories st) /\ category_id task = Some (cat_id c))
    /\ (forall task c,
          In (task, None) (TaskList.tasksWithCategories st) ->
          In c (TaskList.categories st) -> category_id task = Some (cat_id c) ->
          cat_id c = "").
Proof.
  intros st. unfold TaskList.tasksWithCategories. split; [|split].
  - rewrite map_map. simpl. apply map_id.
  - intros task c H. apply in_map_iff in H. destruct H as [t [E _]].
    injection E as -> E. apply category_of_some, E.
  - intros task c H. apply in_map_iff in H. destruct H as [t [E _]].
    injection E as -> E. apply category_of_none, E.
Qed.

Lemma tasksWithCategories_witness :
  In (mkTask "1" "Work Task" None false None None None (Some "cat1") "user1" 0 0 None,
      Some (mkCategory "cat1" "Work" "#3B82F6" None "user1"))
     (TaskList.tasksWithCategories
        (TaskList.mkState test_tasks test_categories false None "" TaskList.status_all
           TaskList.by_created_at false None))
  /\ In (mkCategory "cat1" "Work" "#3B82F6" None "user1") test_categories.
Proof.
  assert (H : In (mkTask "1" "Work Task" None false None None None (Some "cat1") "user1"
                         0 0 None,
                  Some (mkCategory "cat1" "Work" "#3B82F6" None "user1"))
                 (TaskList.tasksWithCategories
                    (TaskList.mkState test_tasks test_categories false None ""
                       TaskList.status_all TaskList.by_created_at false None))).
  { left. reflexivity. }
  split; [exact H|].
  exact (proj1 (proj1 (proj2
           (tasksWithCategories_joins_by_identifier
              (TaskList.mkState test_tasks test_categories false None ""
                 TaskList.status_all TaskList.by_created_at false None))) _ _ H)).
Defined.

(** ** Sequences of actions on the in-memory list *)

Lemma filter_none {A : Type} (p : A -> bool) (l : list A) :
  (forall x, In x l -> p x = false) -> filter p l = [].
Proof.
  induction l as [|x l IH]; intros H; [reflexivity|]. simpl.
  rewrite (H x (or_introl eq_refl)). apply IH. intros y Hy. apply H. right. exact Hy.
Qed.

Lemma delete_absent (k : string) (l : list Task) :
  (forall t, In t l -> id t <> k) ->
  filter (fun t => negb (id t =? k)%string) l = l.
Proof.
  intros H. apply filter_all, Forall_forall. intros t Ht.
  apply negb_true_iff, String.eqb_neq, H, Ht.
Qed.



(** After a successful delete no row of the list has the deleted
    identifier, and the list is no longer than before; deleting the same
    identifier again changes nothing, and deleting an identifier that no
    row has leaves the list as it is. *)
Theorem delete_removes_every_row_with_the_identifier :
  forall (st : TaskList.State) (u : User) (k : string) (d d' : option unit),
    let once := fst (TaskList.handleTaskDelete (Some u) k
                       (Js.Normal (Postgrest.mkResponse d None)) st) in
    (forall t, In t (TaskList.tasks once) -> In t (TaskList.tasks st) /\ id t <> k)
    /\ (List.length (TaskList.tasks once) <= List.length (TaskList.tasks st))%nat
    /\ fst (TaskList.handleTaskDelete (Some u) k
              (Js.Normal (Postgrest.mkResponse d' None)) once) = once
    /\ ((forall t, In t (TaskList.tasks st) -> id t <> k) ->
        TaskList.tasks once = TaskList.tasks st).
Proof.
  intros st u k d d' once. unfold once. simpl. split; [|split; [|split]].
  - intros t Ht. apply filter_In in Ht. destruct Ht as [Hin Hk].
    split; [exact Hin|]. apply String.eqb_neq, negb_true_iff, Hk.
  - apply filter_length_le.
  - unfold TaskList.setTasks. simpl. f_equal.
    apply filter_all, Forall_forall. intros t Ht. apply filter_In in Ht. apply Ht.
  - apply delete_absent.
Qed.

Lemma delete_witness :
  (forall t, In t [groceries] -> id t <> "2")
  /\ TaskList.tasks
       (fst (TaskList.handleTaskDelete (Some (mkUser "user1")) "2"
               (Js.Normal (Postgrest.mkResponse None None)) (list_state [groceries] None)))
     = [groceries].
Proof.
  assert (H : forall t, In t [groceries] -> id t <> "2").
  { intros t [<-|[]]. discriminate. }
  split; [exact H|].
  exact (proj2 (proj2 (proj2
           (delete_removes_every_row_with_the_identifier (list_state [groceries] None)
              (mkUser "user1") "2" None None))) H).
Defined.

Lemma with_completed_same (t : Task) : TaskList.with_completed (completed t) t = t.
Proof. destruct t; reflexivity. Qed.

(** Toggling in the list keeps the rows, their identifiers and their
    order; afterwards every row with the identifier has the flag that
    was asked for; of two toggles of the same identifier the later one
    decides; and toggling to the flag the rows already have changes
    nothing, so toggling there and back restores the list. *)
Theorem toggle_in_the_list_is_last_write_wins :
  forall (st : TaskList.State) (k : string) (b b' : bool),
    map id (TaskList.tasks (TaskList.handleToggleComplete k b st))
      = map id (TaskList.tasks st)
    /\ (forall t, In t (TaskList.tasks (TaskList.handleToggleComplete k b st)) ->
                  id t = k -> completed t = b)
    /\ TaskList.handleToggleComplete k b (TaskList.handleToggleComplete k b' st)
       = TaskList.handleToggleComplete k b st
    /\ ((forall t, In t (TaskList.tasks st) -> id t = k -> completed t = b) ->
        TaskList.handleToggleComplete k b (TaskList.handleToggleComplete k (negb b) st) = st).
Proof.
  intros st k b b'.
  assert (LWW : forall c, TaskList.handleToggleComplete k b
                            (TaskList.handleToggleComplete k c st)
                          = TaskList.handleToggleComplete k b st).
  { intros c. unfold TaskList.handleToggleComplete, TaskList.setTasks. simpl. f_equal.
    rewrite map_map. apply map_ext. intros t.
    destruct (id t =? k)%string eqn:E; simpl; rewrite E; reflexivity. }
  split; [|split; [|split]].
  - unfold TaskList.handleToggleComplete. simpl. rewrite map_map. apply map_ext.
    intros t. destruct (id t =? k)%string; reflexivity.
  - unfold TaskList.handleToggleComplete. simpl. intros t Ht Hk.
    apply in_map_iff in Ht. destruct Ht as [x [<- _]].
    destruct (id x =? k)%string eqn:E; [reflexivity|].
    apply String.eqb_neq in E. contradiction.
  - apply LWW.
  - intros H. rewrite LWW. destruct st as [ts cs il le se fs sb fo et].
    unfold TaskList.handleToggleComplete, TaskList.setTasks. simpl in *. f_equal.
    rewrite <- (map_id ts) at 2. apply map_ext_in. intros t Ht.
    destruct (String.eqb_spec (id t) k) as [Hk|_]; [|reflexivity].
    rewrite <- (H t Ht Hk). apply with_completed_same.
Qed.

Lemma toggle_in_the_list_witness :
  (forall t, In t [groceries; walk_dog] -> id t = "1" -> completed t = false)
  /\ TaskList.handleToggleComplete "1" false
       (TaskList.handleToggleComplete "1" true (list_state [groceries; walk_dog] None))
     = list_state [groceries; walk_dog] None.
Proof.
  assert (H : forall t, In t [groceries; walk_dog] -> id t = "1" -> completed t = false).
  { intros t [<-|[<-|[]]]; [reflexivity | discriminate]. }
  split; [exact H|].
  exact (proj2 (proj2 (proj2
           (toggle_in_the_list_is_last_write_wins (list_state [groceries; walk_dog] None)
              "1" false false))) H).
Defined.

(** ** The form without local validation, and the list *)

(** Through the form without local validation, a signed-in user's
    submission issues exactly one call, an update of the task being edited
    or a create, whatever the form holds (a blank title included) and
    whatever the call settles to.  A response that carries a row and no
    error puts that row in front of the list (create) or in the place of
    every row with its identifier (update); an error, an exception or an
    empty response leaves the state of the list as it was; a form that is
    already saving, or has no user, does nothing. *)
Theorem submit_without_validation_reconciles_the_list :
  forall (st : TaskList.State) (u : User) (formData : TaskForm.FormData) (saved : Task)
         (d : option Task) (err : Postgrest.PostgrestError) (e : Js.Error)
         (result : Js.Completion (Postgrest.Response Task)),
    filter is_call
      (TaskForm_plain.handleSubmit (Some u) false (TaskList.editingTask st) formData result)
    = [Call match TaskList.editingTask st with
            | Some t => tasks_update (id t) (TaskForm.taskData_of formData u) (uid u)
            | None => tasks_create (TaskForm.taskData_of formData u)
            end]
    /\ TaskList.tasks
         (TaskList.submit_plain (Some u) false formData
            (Js.Normal (Postgrest.mkResponse (Some saved) None)) st)
       = match TaskList.editingTask st with
         | Some _ => replaced_by saved (TaskList.tasks st)
         | None => saved :: TaskList.tasks st
         end
    /\ TaskList.submit_plain (Some u) false formData
         (Js.Normal (Postgrest.mkResponse d (Some err))) st = st
    /\ TaskList.submit_plain (Some u) false formData (Js.Throw e) st = st
    /\ TaskList.submit_plain (Some u) false formData
         (Js.Normal (Postgrest.mkResponse None None)) st = st
    /\ TaskForm_plain.handleSubmit (Some u) true (TaskList.editingTask st) formData result = []
    /\ TaskForm_plain.handleSubmit None false (TaskList.editingTask st) formData result = [].
Proof.
  intros st u formData saved d err e result.
  split.
  { unfold TaskForm_plain.handleSubmit.
    destruct result as [[[x|] [y|]]|x]; reflexivity. }
  split.
  { unfold TaskList.submit_plain, TaskForm_plain.handleSubmit, TaskList.after_effects.
    simpl. unfold TaskList.handleTaskSave.
    destruct (TaskList.editingTask st); reflexivity. }
  repeat split.
Qed.

(** ** Rows the data access layer leaves alone *)

(** Toggle-completion changes no category, adds and removes no task and
    keeps the order of the table.  A row with another identifier or
    another owner is left exactly as it was; of the row it addresses
    nothing changes but [completed], [updated_at] and [completed_at]. *)
Theorem toggleComplete_leaves_other_rows_alone :
  forall (id_ : string) (completed_ : bool) (userId : string)
         (now_updated now_completed server_now : Timestamp) (db : Postgrest.Db),
    let db' := snd (database.tasks.toggleComplete id_ completed_ userId
                      now_updated now_completed server_now db) in
    Postgrest.categories_table db' = Postgrest.categories_table db
    /\ map id (Postgrest.tasks_table db') = map id (Postgrest.tasks_table db)
    /\ forall i t,
         nth_error (Postgrest.tasks_table db) i = Some t ->
         exists t',
           nth_error (Postgrest.tasks_table db') i = Some t'
           /\ (database.tasks.is_row id_ userId t = false -> t' = t)
           /\ id t' = id t /\ user_id t' = user_id t /\ title t' = title t
           /\ description t' = description t /\ due_date t' = due_date t
           /\ reminder_date t' = reminder_date t /\ priority t' = priority t
           /\ category_id t' = category_id t /\ created_at t' = created_at t.
Proof.
  intros id_ completed_ userId n1 n2 sn db db'.
  destruct (update_single_frame (database.tasks.is_row id_ userId)
              (database.tasks.toggle_payload completed_ n1 n2) sn db) as [C F].
  fold (database.tasks.toggleComplete id_ completed_ userId n1 n2 sn db) in C, F.
  fold db' in C, F.
  assert (G : forall i t,
             nth_error (Postgrest.tasks_table db) i = Some t ->
             exists t',
               nth_error (Postgrest.tasks_table db') i = Some t'
               /\ (database.tasks.is_row id_ userId t = false -> t' = t)
               /\ id t' = id t /\ user_id t' = user_id t /\ title t' = title t
               /\ description t' = description t /\ due_date t' = due_date t
               /\ reminder_date t' = reminder_date t /\ priority t' = priority t
               /\ category_id t' = category_id t /\ created_at t' = created_at t).
  { intros i t Hi. destruct (F i t Hi) as [t' [Hi' [Hsel [->| ->]]]];
      eexists; (split; [exact Hi'|]); (split; [exact Hsel|]); repeat split. }
  split; [exact C|]. split; [|exact G].
  apply nth_error_ext. intros i. rewrite !nth_error_map.
  destruct (nth_error (Postgrest.tasks_table db) i) as [t|] eqn:Hi.
  - destruct (G i t Hi) as [t' [Hi' [_ [Hid _]]]]. rewrite Hi'. simpl. rewrite Hid.
    reflexivity.
  - destruct (nth_error (Postgrest.tasks_table db') i) as [t'|] eqn:Hi'; [|reflexivity].
    exfalso. apply nth_error_None in Hi.
    assert (L : List.length (Postgrest.tasks_table db')
                = List.length (Postgrest.tasks_table db)).
    { unfold db', database.tasks.toggleComplete.
      destruct (update_single_cases (database.tasks.is_row id_ userId)
                  (database.tasks.toggle_payload completed_ n1 n2) sn db)
        as [[c [_ E]] | [[_ [t [_ E]]] | [_ [_ [e [_ E]]]]]]; rewrite E; simpl;
        [reflexivity | apply length_map | reflexivity]. }
    assert (X : nth_error (Postgrest.tasks_table db') i <> None) by congruence.
    apply nth_error_Some in X. lia.
Qed.

Lemma toggleComplete_frame_witness :
  database.tasks.is_row "1" "user1" walk_dog = false
  /\ nth_error (Postgrest.tasks_table
                  (snd (database.tasks.toggleComplete "1" true "user1" 10 11 5000
                          (Postgrest.mkDb [groceries; walk_dog] [])))) 1
     = Some walk_dog.
Proof.
  split; [reflexivity|].
  destruct (proj2 (proj2
              (toggleComplete_leaves_other_rows_alone "1" true "user1" 10 11 5000
                 (Postgrest.mkDb [groceries; walk_dog] []))) 1%nat walk_dog eq_refl)
    as [t' [H1 [H2 _]]].
  rewrite H1. f_equal. apply H2. reflexivity.
Defined.

(** ** Updating a task *)

(** The payload [update] sends names [updated_at] beside what the caller
    names, and the client's clock reading in it is lost to the trigger. *)
Lemma update_payload_keys (updates : Postgrest.TaskUpdates) (now now' : Timestamp) :
  Postgrest.keys (database.tasks.update_payload updates now)
  = Postgrest.keys (database.tasks.update_payload updates now').
Proof. reflexivity. Qed.

Lemma updated_row_clock (updates : Postgrest.TaskUpdates) (now now' server_now : Timestamp)
    (t : Task) :
  Postgrest.updated_row (database.tasks.update_payload updates now) server_now t
  = Postgrest.updated_row (database.tasks.update_payload updates now') server_now t.
Proof. reflexivity. Qed.


Example update_is_stamped_by_the_server :
  option_map updated_at
    (Postgrest.data
       (fst (database.tasks.update "1"
               (Postgrest.mkUpdates (Some "Buy bread") None None None None None None None
                  (Some 99) None)
               "user1" 50 5000 (Postgrest.mkDb [groceries; walk_dog] []))))
  = Some 5000.
Proof. reflexivity. Qed.

(** An update through the form's payload stores nothing.  The form sends
    the priority with every submission, and the tasks table of schema.sql
    has no [priority] column: whatever row is addressed, the service
    refuses the update, the answer carries an error and no row, and the
    table is as it was.  The error is classified as a database error with
    the standard message.  Through the form without local validation
    the submission then leaves the list as it was, and the only effects
    are the raising and the lowering of the form's loading flag around
    the call: nothing is reported. *)
Theorem update_from_the_form_is_refused :
  forall (id_ : string) (formData : TaskForm.FormData) (u : User)
         (now server_now : Timestamp) (db : Postgrest.Db) (context : option string)
         (st : TaskList.State) (task : Task),
    let updates := TaskForm.updates_of (TaskForm.taskData_of formData u) in
    let r := fst (database.tasks.update id_ updates (uid u) now server_now db) in
    let db' := snd (database.tasks.update id_ updates (uid u) now server_now db) in
    In "priority" (Postgrest.keys (database.tasks.update_payload updates now))
    /\ ~ In "priority" Postgrest.tasks_columns
    /\ Postgrest.data r = None
    /\ Postgrest.error r = Some (Postgrest.PGRST204 "priority")
    /\ db' = db
    /\ error_handler.type
         (error_handler.handleSupabaseError
            (Some (error_handler.OfResponse (Postgrest.PGRST204 "priority"))) context)
       = error_handler.DATABASE
    /\ error_handler.message
         (error_handler.handleSupabaseError
            (Some (error_handler.OfResponse (Postgrest.PGRST204 "priority"))) context)
       = "Something went wrong. Please try again later"
    /\ TaskList.submit_plain (Some u) false formData (Js.Normal r) st = st
    /\ TaskForm_plain.handleSubmit (Some u) false (Some task) formData (Js.Normal r)
       = [SetIsLoading true;
          Call (tasks_update (id task) (TaskForm.taskData_of formData u) (uid u));
          SetIsLoading false].
Proof.
  intros id_ formData u now server_now db context st task updates r db'.
  split; [simpl; auto 10|]. split.
  { simpl. intros H. repeat (destruct H as [H|H]; [discriminate H|]). exact H. }
  repeat split.
Qed.



(** ** Reading and deleting by identifier *)

(** [getById] answers with a row exactly when one row has the identifier
    and belongs to the user, and then with that row and without error.
    In every other case, a task of another user included, it answers
    without a row and with an error that [handleSupabaseError] classifies
    as NOT_FOUND: to the caller the task of someone else looks like a
    task that does not exist. *)
Theorem getById_is_scoped_to_the_owner :
  forall (id_ userId : string) (context : option string) (db : Postgrest.Db),
    let r := database.tasks.getById id_ userId db in
    (forall t,
        Postgrest.data r = Some t
        <-> filter (database.tasks.is_row id_ userId) (Postgrest.tasks_table db) = [t])
    /\ (forall t, Postgrest.data r = Some t ->
                  Postgrest.error r = None
                  /\ In t (Postgrest.tasks_table db) /\ id t = id_ /\ user_id t = userId)
    /\ (Postgrest.data r = None ->
        exists e,
          Postgrest.error r = Some e
          /\ error_handler.type
               (error_handler.handleSupabaseError (Some (error_handler.OfResponse e)) context)
             = error_handler.NOT_FOUND)
    /\ ((forall t, In t (Postgrest.tasks_table db) -> id t = id_ -> user_id t <> userId) ->
        Postgrest.data r = None).
Proof.
  intros id_ userId context db r. unfold r, database.tasks.getById.
  split; [|split; [|split]].
  - intros t.
    destruct (filter (database.tasks.is_row id_ userId) (Postgrest.tasks_table db))
      as [|x [|x' rest]]; simpl; split; intros H; try discriminate H.
    + injection H as <-. reflexivity.
    + injection H as <-. reflexivity.
  - intros t.
    destruct (filter (database.tasks.is_row id_ userId) (Postgrest.tasks_table db))
      as [|x [|x' rest]] eqn:E; simpl; intros H; try discriminate H.
    injection H as <-. destruct (filter_singleton_in _ _ _ E) as [Hin Hsel].
    apply is_row_spec in Hsel. tauto.
  - destruct (filter (database.tasks.is_row id_ userId) (Postgrest.tasks_table db))
      as [|x [|x' rest]]; simpl; intros H; try discriminate H;
      eexists; split; reflexivity.
  - intros H. rewrite filter_none; [reflexivity|].
    intros t Ht. destruct (database.tasks.is_row id_ userId t) eqn:S; [|reflexivity].
    apply is_row_spec in S. destruct S as [Hid Hu]. exfalso. exact (H t Ht Hid Hu).
Qed.

Lemma getById_witness :
  (forall t, In t [groceries] -> id t = "1" -> user_id t <> "user2")
  /\ Postgrest.data (database.tasks.getById "1" "user2" (Postgrest.mkDb [groceries] [])) = None
  /\ Postgrest.data (database.tasks.getById "1" "user1"
                       (Postgrest.mkDb [walk_dog; groceries] []))
     = Some groceries.
Proof.
  assert (H : forall t, In t [groceries] -> id t = "1" -> user_id t <> "user2").
  { intros t [<-|[]] _. discriminate. }
  split; [exact H|]. split.
  - exact (proj2 (proj2 (proj2
             (getById_is_scoped_to_the_owner "1" "user2" None
                (Postgrest.mkDb [groceries] [])))) H).
  - exact (proj2 (proj1 (getById_is_scoped_to_the_owner "1" "user1" None
                           (Postgrest.mkDb [walk_dog; groceries] [])) groceries)
             eq_refl).
Defined.

(** Deleting a task answers without error whether or not a row matched.
    Afterwards the table holds exactly the rows it held that do not have
    both the identifier and the owner, in their order: a row with the same
    identifier but another owner stays.  The categories are untouched; a
    second delete changes nothing; and reading the task by identifier
    afterwards is a NOT_FOUND. *)
Theorem delete_task_is_scoped_and_idempotent :
  forall (id_ userId : string) (context : option string) (db : Postgrest.Db),
    let db' := snd (database.tasks.delete id_ userId db) in
    Postgrest.error (fst (database.tasks.delete id_ userId db)) = None
    /\ (forall t, In t (Postgrest.tasks_table db')
                  <-> In t (Postgrest.tasks_table db) /\ ~ (id t = id_ /\ user_id t = userId))
    /\ (exists keep, Postgrest.tasks_table db' = filter keep (Postgrest.tasks_table db))
    /\ Postgrest.categories_table db' = Postgrest.categories_table db
    /\ snd (database.tasks.delete id_ userId db') = db'
    /\ exists e,
         Postgrest.error (database.tasks.getById id_ userId db') = Some e
         /\ error_handler.type
              (error_handler.handleSupabaseError (Some (error_handler.OfResponse e)) context)
            = error_handler.NOT_FOUND.
Proof.
  intros id_ userId context db db'. unfold db', database.tasks.delete. simpl.
  assert (G : filter (database.tasks.is_row id_ userId)
                (Postgrest.delete_where (database.tasks.is_row id_ userId)
                   (Postgrest.tasks_table db)) = []).
  { apply filter_none. intros t Ht. apply filter_In in Ht.
    apply negb_true_iff, Ht. }
  split; [reflexivity|]. split; [|split; [|split; [|split]]].
  - intros t. unfold Postgrest.delete_where. rewrite filter_In, negb_true_iff.
    rewrite <- is_row_spec. destruct (database.tasks.is_row id_ userId t);
      intuition congruence.
  - eexists. reflexivity.
  - reflexivity.
  - f_equal. unfold Postgrest.delete_where at 1. apply filter_all, Forall_forall.
    intros t Ht. apply filter_In in Ht. apply Ht.
  - unfold database.tasks.getById. simpl. rewrite G. simpl.
    eexists. split; reflexivity.
Qed.

(** ** Which rows the list queries return *)




(** ** Deleting a category *)

Example category_delete_detaches :
  map (fun t => (category_id t, updated_at t))
    (Postgrest.tasks_table
       (snd (database.categories.delete "cat1" "user1" 5000
               (Postgrest.mkDb test_tasks test_categories))))
  = [(None, 5000); (Some "cat2", 0); (None, 5000)].
Proof. reflexivity. Qed.



(** ** Task item *)

(** A click on the checkbox of a signed-in user's task that is not being
    updated issues exactly one toggle call, for the negation of the flag
    on display, whatever the call settles to; it raises the busy flag
    first and always lowers it last; and it tells the list only when the
    response carries no error.  A click while the item is being updated,
    or without a user, does nothing. *)
Theorem item_toggle_issues_one_call_and_releases_the_flag :
  forall (u : User) (task : Task) (result : Js.Completion (Postgrest.Response Task)),
    let effs := TaskItem.handleToggleComplete (Some u) false task result in
    filter is_call effs
      = [Call (tasks_toggleComplete (id task) (negb (completed task)) (uid u))]
    /\ hd_error effs = Some (SetIsUpdating true)
    /\ last effs (SetIsUpdating true) = SetIsUpdating false
    /\ (In (OnToggleComplete (id task) (negb (completed task))) effs
        <-> exists r, result = Js.Normal r /\ Postgrest.error r = None)
    /\ TaskItem.handleToggleComplete (Some u) true task result = []
    /\ TaskItem.handleToggleComplete None false task result = [].
Proof.
  intros u task result effs. unfold effs, TaskItem.handleToggleComplete.
  destruct result as [[d [e|]]|x]; simpl;
    (split; [reflexivity|]); (split; [reflexivity|]); (split; [reflexivity|]);
    (split; [|split; reflexivity]);
    (split;
     [ intros H;
       first [ eexists; split; reflexivity
             | exfalso; repeat (destruct H as [H|H]; [discriminate H|]); exact H ]
     | intros [r [H E]];
       first [ discriminate H
             | injection H as <-; first [discriminate E | simpl; auto 6] ] ]).
Qed.

(** With a clock that does not run backwards between the two readings,
    a task flagged overdue is also flagged due soon, so of the two only
    the overdue colour shows; a completed task and a task without due
    date are flagged neither way, at any time. *)
Theorem overdue_implies_due_soon :
  forall (now now' : Timestamp) (task : Task),
    now <= now' ->
    (TaskItem.isOverdue now task = true -> TaskItem.isDueSoon now' task = true)
    /\ (TaskItem.isOverdue now task = true
        <-> TaskItem.dueDateClass now now' task = "text-red-600")
    /\ (completed task = true \/ due_date task = None ->
        TaskItem.isOverdue now task = false /\ TaskItem.isDueSoon now' task = false).
Proof.
  intros now now' task Hn.
  unfold TaskItem.dueDateClass, TaskItem.isOverdue, TaskItem.isDueSoon, TaskItem.msPerDay.
  destruct (due_date task) as [due|]; simpl.
  - destruct (completed task); simpl; rewrite ?andb_false_r, ?andb_true_r.
    + split; [discriminate|]. split; [split; discriminate|]. intros _. split; reflexivity.
    + split; [rewrite Z.ltb_lt, Z.leb_le; lia|]. split.
      * destruct (due <? now); [split; reflexivity|].
        match goal with
        | |- context [if ?b then _ else _] => destruct b
        end; split; discriminate.
      * intros [H|H]; discriminate.
  - split; [discriminate|]. split; [split; discriminate|]. intros _. split; reflexivity.
Qed.

Lemma overdue_witness :
  100 <= 100
  /\ TaskItem.isOverdue 100 (due_task "late" (Some 5)) = true
  /\ TaskItem.isDueSoon 100 (due_task "late" (Some 5)) = true.
Proof.
  split; [lia|]. split; [reflexivity|].
  exact (proj1 (overdue_implies_due_soon 100 100 (due_task "late" (Some 5)) (Z.le_refl 100))
           eq_refl).
Defined.

(** ** Category sidebar: saving and failing *)

(** Saving a category.  A response with a row and no error appends the
    row at the end of the list when the form was creating, and puts it in
    the place of every category with its identifier when it was editing,
    the others unchanged and in order; either way the form is closed and
    reset.  An error, an exception or an empty response changes nothing,
    and the form stays as it is.  The call the handler awaits carries the
    name and the description trimmed; opening a category for edit fills
    the form with its fields. *)
Theorem sidebar_save_reconciles_the_categories :
  forall (st : CategorySidebar.State) (u : User) (row : Category) (d : option Category)
         (err : Postgrest.PostgrestError) (e : Js.Error),
    let saved := fst (CategorySidebar.handleSubmit (Some u)
                        (Js.Normal (Postgrest.mkResponse (Some row) None)) st) in
    CategorySidebar.categories saved
      = match CategorySidebar.editingCategory st with
        | Some _ =>
            map (fun c => if (cat_id c =? cat_id row)%string then row else c)
                (CategorySidebar.categories st)
        | None => (CategorySidebar.categories st ++ [row])%list
        end
    /\ CategorySidebar.isFormOpen saved = false
    /\ CategorySidebar.editingCategory saved = None
    /\ CategorySidebar.formData saved = CategorySidebar.emptyForm
    /\ fst (CategorySidebar.handleSubmit (Some u)
              (Js.Normal (Postgrest.mkResponse d (Some err))) st) = st
    /\ fst (CategorySidebar.handleSubmit (Some u) (Js.Throw e) st) = st
    /\ fst (CategorySidebar.handleSubmit (Some u)
              (Js.Normal (Postgrest.mkResponse None None)) st) = st
    /\ (forall c,
          CategorySidebar.request_of u (CategorySidebar.handleEdit c st)
          = CategorySidebar.update (cat_id c)
              (CategorySidebar.mkCategoryData (Js.trim (cat_name c)) (cat_color c)
                 (Js.trim (match cat_description c with Some x => x | None => "" end))
                 (uid u))
              (uid u)).
Proof.
  intros st u row d err e saved. unfold saved, CategorySidebar.handleSubmit. simpl.
  split; [destruct (CategorySidebar.editingCategory st); reflexivity|].
  repeat split.
Qed.

(** A category delete that fails, by an error in the response or by an
    exception, leaves the sidebar's state and the selection as they were
    and never calls the selection callback; without a user not even the
    call is made. *)
Theorem sidebar_failed_delete_changes_nothing :
  forall (st : CategorySidebar.State) (u : User) (selected : option string)
         (categoryId : string) (d : option unit) (err : Postgrest.PostgrestError)
         (e : Js.Error) (result : Js.Completion (Postgrest.Response unit)),
    let failed := CategorySidebar.handleDelete (Some u) selected categoryId
                    (Js.Normal (Postgrest.mkResponse d (Some err))) st in
    let thrown := CategorySidebar.handleDelete (Some u) selected categoryId (Js.Throw e) st in
    fst failed = st /\ fst thrown = st
    /\ CategorySidebar.select_after (snd failed) selected = selected
    /\ CategorySidebar.select_after (snd thrown) selected = selected
    /\ filter is_call (snd failed) = [Call (categories_delete categoryId (uid u))]
    /\ filter is_call (snd thrown) = [Call (categories_delete categoryId (uid u))]
    /\ CategorySidebar.handleDelete None selected categoryId result st = (st, []).
Proof. intros. repeat split. Qed.

(** ** Opening a task in the form and saving it unchanged *)

Example edit_moves_the_due_date :
  data_due_date
    (TaskForm.taskData_of
       (TaskForm.initialFormData 3600000
          (Some (due_task "t" (Some 1735689599000)))) (mkUser "user1"))
  = Some (1735689540000 - 3600000).
Proof. reflexivity. Qed.

(** The payload of a form that was opened on a task and submitted
    unchanged.  The title comes back trimmed, the priority as it was
    (medium when the task had none), the category as it was (none for
    the empty identifier), and a missing date stays missing.  A date that
    is set does not come back as it was: the form shows its UTC reading
    cut to the minute and reads it back as local time, so it returns
    moved back by the zone's offset and at most one minute more; it is
    unchanged exactly when the offset cancels the seconds that were cut,
    which in a zone at UTC means a date on a whole minute. *)
Theorem unchanged_edit_moves_the_dates :
  forall (tzOffset : Z) (task : Task) (u : User),
    let sent := TaskForm.taskData_of (TaskForm.initialFormData tzOffset (Some task)) u in
    let moved (before after : option Timestamp) :=
      match before, after with
      | Some d, Some d' =>
          d - tzOffset - 60000 < d' <= d - tzOffset
          /\ (d' = d <-> d mod 60000 = - tzOffset)
      | None, None => True
      | _, _ => False
      end in
    data_title sent = Js.trim (title task)
    /\ data_priority sent = match priority task with Some p => p | None => medium end
    /\ data_category_id sent
       = match category_id task with
         | Some c => if Js.truthy c then Some c else None
         | None => None
         end
    /\ data_user_id sent = uid u
    /\ moved (due_date task) (data_due_date sent)
    /\ moved (reminder_date task) (data_reminder_date sent).
Proof.
  intros tzOffset task u sent moved.
  assert (M : forall d, d - tzOffset - 60000 < TaskForm.parseLocal tzOffset (TaskForm.isoMinute d)
                        <= d - tzOffset
                        /\ (TaskForm.parseLocal tzOffset (TaskForm.isoMinute d) = d
                            <-> d mod 60000 = - tzOffset)).
  { intros d. unfold TaskForm.parseLocal, TaskForm.isoMinute.
    pose proof (Z.div_mod d 60000 ltac:(lia)) as D.
    pose proof (Z.mod_pos_bound d 60000 ltac:(lia)) as B. lia. }
  unfold sent, moved, TaskForm.taskData_of, TaskForm.initialFormData. simpl.
  split; [reflexivity|]. split; [reflexivity|].
  split; [destruct (category_id task); reflexivity|].
  split; [reflexivity|]. split.
  - destruct (due_date task) as [d|]; [apply M | exact I].
  - destruct (reminder_date task) as [d|]; [apply M | exact I].
Qed.

(** ** Route gating *)

Example middleware_run :
  routes.middleware false "/dashboard/tasks" = routes.Redirect "/auth/login"
  /\ routes.middleware true "/auth/login" = routes.Redirect "/dashboard"
  /\ routes.middleware true "/dashboard" = routes.Next
  /\ routes.middleware false "/auth/register" = routes.Next.
Proof. repeat split. Qed.

(** Route gating never loops: the path a request is redirected to is let
    through for the same session state.  Without a session a request is
    let through exactly when its path does not start with [/dashboard];
    with a session, exactly when it does not start with [/auth]; the only
    redirect targets are the login page and the dashboard. *)
Theorem middleware_gates_without_redirect_loop :
  forall (session : bool) (pathname : string),
    match routes.middleware session pathname with
    | routes.Redirect target => routes.middleware session target = routes.Next
    | routes.Next => True
    end
    /\ (routes.middleware false pathname = routes.Next
        <-> Js.startsWith pathname "/dashboard" = false)
    /\ (routes.middleware true pathname = routes.Next
        <-> Js.startsWith pathname "/auth" = false)
    /\ In (routes.middleware session pathname)
          [routes.Next; routes.Redirect (if session then "/dashboard" else "/auth/login")].
Proof.
  intros session pathname. unfold routes.middleware, routes.protectedRoutes.
  cbn [existsb]. rewrite orb_false_r.
  destruct (Js.startsWith pathname "/auth") eqn:A,
           (Js.startsWith pathname "/dashboard") eqn:D, session;
    repeat split; try reflexivity; try discriminate; simpl; auto.
Qed.
